(** * Product demand forecast: the request pipeline of [app.py]

    A shallow embedding of the Flask application [app.py]: the start-up load
    of the demand file, the two series builders [prepare_data] and
    [get_yearly_demand], the forecaster wrappers [train_arima] and
    [predict_demand], the two chart builders and the request handler [index].

    Library behaviour the program relies on is written out where the program's
    results depend on it (boolean-mask selection, [resample('Y').sum()],
    forward fill, dictionary comprehensions, base64) and is a parameter of the
    development where it is numerical or textual machinery of a collaborator
    (date parsing, numeric parsing, ARIMA fitting, rasterisation).  The
    reference behaviour is that of a pandas release that accepts the ['Y']
    alias and [fillna(method='ffill')].  What a parser makes of a cell may
    depend on the column the cell stands in (the inferred date format, the
    type of the quantity column), so the parsers take the column as well.

    Data frames are objects in a store and the builders run in a state and
    exception monad over it, so that what a request does to the dataset can
    be stated.  A timestamp is its calendar day; the time of day plays no
    part in yearly bins.  Of a figure the artists, labels, title and x-limits
    are kept; legend, grid and tick rotation do not depend on the input.
    Rasterising a figure can fail, and no chart builder catches that. *)

From Stdlib Require Import ZArith List String Ascii Bool Lia QArith.
From Stdlib Require Import DecimalString DecimalZ FinFun.
Import ListNotations.
Local Open Scope string_scope.
Local Open Scope list_scope.
Local Open Scope Z_scope.

Set Implicit Arguments.

(** ** Exceptions and results *)

Inductive exn : Type :=
| FileNotFoundError
| ValueError
| TypeError
| KeyError
| IndexError
| IntCastingNaNError
| OutOfBoundsDatetime
| BadRequestKeyError
| LibraryError.

Inductive result (A : Type) : Type :=
| Ok (a : A)
| Raise (e : exn).
Arguments Ok {A} a.
Arguments Raise {A} e.

Definition and_then {A B} (r : result A) (k : A -> result B) : result B :=
  match r with
  | Ok a => k a
  | Raise e => Raise e
  end.

Declare Scope result_scope.
Delimit Scope result_scope with result.
Notation "x <- r ;; k" := (and_then r (fun x => k))
  (at level 61, r at next level, right associativity) : result_scope.

(** ** Timestamps, cells and series *)

Record Timestamp : Type := mkTimestamp { year : Z; month : Z; day : Z }.

(** The label pandas gives the yearly bin of [y]: the last day of the year. *)
Definition year_end (y : Z) : Timestamp := mkTimestamp y 12 31.

(** A cell as [pd.read_csv] hands it over: missing, text, or a number when
    the whole column reads as numbers. *)
Inductive Cell : Type :=
| Missing
| Str (s : string)
| Num (q : Q).

(** A cell of the [Date] column: as read from the file, or, after
    [pd.to_datetime], a timestamp ([None] is NaT). *)
Inductive DateCell : Type :=
| RawDate (c : Cell)
| ParsedDate (t : option Timestamp).

Record Row : Type := mkRow {
  Product_Code : Cell;
  Date : DateCell;
  Order_Demand : Z
}.

(** A data frame with the three columns of the demand file.  [indexed] is set
    once [set_index('Date')] has moved the [Date] column into the index; the
    cells then are the index labels and the column is gone. *)
Record DataFrame : Type := mkFrame {
  indexed : bool;
  rows : list Row
}.

(** A series: index label and value, in order.  A value [None] is NaN. *)
Definition Series : Type := list (Timestamp * option Z).

Definition series_years (s : Series) : list Z := map (fun p => year (fst p)) s.

(** ** 64-bit sums *)

Definition wrap64 (z : Z) : Z := (z + 2 ^ 63) mod 2 ^ 64 - 2 ^ 63.

Definition sum_int64 (l : list Z) : Z :=
  fold_left (fun acc v => wrap64 (acc + v)) l 0.

(** ** The object store

    Data frames are mutable objects.  The store holds them by reference; the
    module-level [data] is the first object. *)

Definition ref : Type := nat.
Definition Store : Type := list DataFrame.
Definition data : ref := 0%nat.

Definition M (A : Type) : Type := Store -> result A * Store.

Definition ret {A} (a : A) : M A := fun st => (Ok a, st).
Definition raise {A} (e : exn) : M A := fun st => (Raise e, st).
Definition bind {A B} (m : M A) (k : A -> M B) : M B :=
  fun st =>
    match m st with
    | (Ok a, st') => k a st'
    | (Raise e, st') => (Raise e, st')
    end.
(** [try: body  except Exception: handler] *)
Definition try_except {A} (body : M A) (handler : exn -> M A) : M A :=
  fun st =>
    match body st with
    | (Ok a, st') => (Ok a, st')
    | (Raise e, st') => handler e st'
    end.
Definition lift {A} (r : result A) : M A := fun st => (r, st).

Declare Scope py_scope.
Delimit Scope py_scope with py.
Notation "x <- m ;; k" := (bind m (fun x => k))
  (at level 61, m at next level, right associativity) : py_scope.
Notation "m ;;; k" := (bind m (fun _ => k))
  (at level 61, right associativity) : py_scope.
Local Open Scope py_scope.

Definition read (r : ref) : M DataFrame :=
  fun st =>
    match nth_error st r with
    | Some f => (Ok f, st)
    | None => (Raise KeyError, st)
    end.

Definition alloc (f : DataFrame) : M ref :=
  fun st => (Ok (List.length st), st ++ [f]).

Fixpoint update (st : Store) (r : ref) (f : DataFrame) : Store :=
  match st, r with
  | [], _ => []
  | _ :: tl, O => f :: tl
  | hd :: tl, S r' => hd :: update tl r' f
  end.

Definition write (r : ref) (f : DataFrame) : M unit :=
  fun st => (Ok tt, update st r f).

(** [returns m st a]: run from the store [st], the computation [m] returns
    [a] and raises nothing. *)
Definition returns {A} (m : M A) (st : Store) (a : A) : Prop :=
  fst (m st) = Ok a.

(** ** The pandas operations the program uses *)

(** [cell == product_code], the right-hand side being text: a number and a
    missing cell are equal to no text. *)
Definition code_eqb (c : Cell) (product_code : string) : bool :=
  match c with
  | Str s => String.eqb s product_code
  | _ => false
  end.

(** [df[df['Product_Code'] == product_code]]: a new frame with the selected
    rows. *)
Definition select_product (df : ref) (product_code : string) : M ref :=
  f <- read df ;;
  alloc (mkFrame (indexed f)
           (filter (fun r => code_eqb (Product_Code r) product_code) (rows f))).

(** [df.copy()] *)
Definition copy (df : ref) : M ref :=
  f <- read df ;; alloc f.

(** [df.empty] *)
Definition empty (df : ref) : M bool :=
  f <- read df ;;
  ret (match rows f with [] => true | _ => false end).

Section Pandas.

(** [pd.to_datetime(column, errors='coerce')] at one cell of the column;
    [None] is NaT.  The column is given too: the format pandas parses with
    may be inferred from it. *)
Variable to_datetime : list Cell -> Cell -> option Timestamp.

(** The [Date] column as it was read; a cell parsed already holds no text. *)
Definition date_column (rs : list Row) : list Cell :=
  map (fun r => match Date r with
                | RawDate c => c
                | ParsedDate _ => Missing
                end) rs.

Definition cell_to_datetime (column : list Cell) (c : DateCell)
  : option Timestamp :=
  match c with
  | RawDate x => to_datetime column x
  | ParsedDate t => t
  end.

(** [df['Date'] = pd.to_datetime(df['Date'], errors='coerce')], in place. *)
Definition assign_Date_to_datetime (df : ref) : M unit :=
  f <- read df ;;
  if indexed f then raise KeyError
  else write df (mkFrame false
         (map (fun r => mkRow (Product_Code r)
                              (ParsedDate
                                 (cell_to_datetime (date_column (rows f))
                                    (Date r)))
                              (Order_Demand r)) (rows f))).

(** [df.set_index('Date', inplace=True)] *)
Definition set_index_Date (df : ref) : M unit :=
  f <- read df ;;
  if indexed f then raise KeyError
  else write df (mkFrame true (rows f)).

(** The timestamp of an index label, when the index is a DatetimeIndex. *)
Definition index_label (r : Row) : result (option Timestamp) :=
  match Date r with
  | ParsedDate t => Ok t
  | RawDate _ => Raise TypeError
  end.

Fixpoint datetime_index (rs : list Row) : result (list (option Timestamp * Z)) :=
  match rs with
  | [] => Ok []
  | r :: tl =>
      match index_label r, datetime_index tl with
      | Ok t, Ok l => Ok ((t, Order_Demand r) :: l)
      | Raise e, _ => Raise e
      | _, Raise e => Raise e
      end
  end.

(** The rows whose label is a timestamp: NaT labels belong to no bin. *)
Fixpoint valid_points (l : list (option Timestamp * Z)) : list (Timestamp * Z) :=
  match l with
  | [] => []
  | (Some t, v) :: tl => (t, v) :: valid_points tl
  | (None, _) :: tl => valid_points tl
  end.

Definition min_year (y0 : Z) (l : list (Timestamp * Z)) : Z :=
  fold_left (fun m p => Z.min m (year (fst p))) l y0.
Definition max_year (y0 : Z) (l : list (Timestamp * Z)) : Z :=
  fold_left (fun m p => Z.max m (year (fst p))) l y0.

(** The years [lo, lo+1, ..., hi]. *)
Definition year_range (lo hi : Z) : list Z :=
  map (fun i => lo + Z.of_nat i) (seq 0 (Z.to_nat (hi - lo + 1))).

Definition year_total (pts : list (Timestamp * Z)) (y : Z) : Z :=
  sum_int64 (map snd (filter (fun p => year (fst p) =? y) pts)).

(** The edges of the yearly bins.  The first is the year end before the
    earliest label, the last the year end on or after the latest label, and
    the one after it when the latest label is itself a year end.  A timestamp
    lies between 1677-09-21 and 2262-04-11, so the first edge must not fall
    before the end of 1677 nor the last after the end of 2261. *)
Definition is_year_end (t : Timestamp) : bool :=
  (month t =? 12) && (day t =? 31).

Definition last_edge_year (hi : Z) (pts : list (Timestamp * Z)) : Z :=
  if existsb (fun p => (year (fst p) =? hi) && is_year_end (fst p)) pts
  then hi + 1 else hi.

Definition edges_in_bounds (lo hi : Z) (pts : list (Timestamp * Z)) : bool :=
  (1677 <=? lo - 1) && (last_edge_year hi pts <=? 2261).

(** [s.resample('Y').sum()] on an integer column: one bin per calendar year
    from the year of the earliest label to the year of the latest one, each
    labelled with its last day and holding the sum of its rows, which is 0
    for a year without rows.  NaT labels are left out; with nothing but NaT
    labels the range of the bins cannot be built and pandas raises, and so it
    does when an edge of the bins is no timestamp. *)
Definition resample_Y_sum (l : list (option Timestamp * Z)) : result Series :=
  match l with
  | [] => Ok []
  | _ =>
      match valid_points l with
      | [] => Raise ValueError
      | (t0, v0) :: tl =>
          let pts := (t0, v0) :: tl in
          let lo := min_year (year t0) tl in
          let hi := max_year (year t0) tl in
          if edges_in_bounds lo hi pts
          then Ok (map (fun y => (year_end y, Some (year_total pts y)))
                       (year_range lo hi))
          else Raise OutOfBoundsDatetime
      end
  end.

(** [df['Order_Demand'].resample('Y').sum()] *)
Definition resample_Order_Demand (df : ref) : M Series :=
  f <- read df ;;
  if indexed f then
    l <- lift (datetime_index (rows f)) ;;
    lift (resample_Y_sum l)
  else raise TypeError.

(** [s.fillna(method='ffill')]: a NaN takes the last value before it. *)
Fixpoint ffill_from (prev : option Z) (s : Series) : Series :=
  match s with
  | [] => []
  | (t, v) :: tl =>
      let v' := match v with Some _ => v | None => prev end in
      (t, v') :: ffill_from v' tl
  end.
Definition ffill (s : Series) : Series := ffill_from None s.

(** [s[s.index.year >= lo]] and [s[s.index.year <= hi]] *)
Definition year_ge (lo : Z) (s : Series) : Series :=
  filter (fun p => lo <=? year (fst p)) s.
Definition year_le (hi : Z) (s : Series) : Series :=
  filter (fun p => year (fst p) <=? hi) s.

(** ** Series preparation *)

Definition prepare_data (product_code : string) : M Series :=
  selected <- select_product data product_code ;;
  product_data <- copy selected ;;
  e <- empty product_data ;;
  if (e : bool) then ret []
  else
    try_except
      (assign_Date_to_datetime product_data ;;;
       set_index_Date product_data ;;;
       resampled <- resample_Order_Demand product_data ;;
       let order_demand := ffill resampled in
       let order_demand := year_ge 2015 order_demand in
       let order_demand := year_le 2024 order_demand in
       ret order_demand)
      (fun _ => ret []).

(** [None] is Python's [None]. *)
Definition get_yearly_demand (product_code : string) : M (option Series) :=
  selected <- select_product data product_code ;;
  product_history <- copy selected ;;
  e <- empty product_history ;;
  if (e : bool) then ret None
  else
    try_except
      (assign_Date_to_datetime product_history ;;;
       set_index_Date product_history ;;;
       yearly_demand <- resample_Order_Demand product_history ;;
       let yearly_demand := year_ge 2015 yearly_demand in
       let yearly_demand := year_le 2024 yearly_demand in
       ret (Some yearly_demand))
      (fun _ => ret None).

End Pandas.

(** ** Python's [str] and [int] on integers, and dictionaries *)

Definition str (z : Z) : string := NilZero.string_of_int (Z.to_int z).

(** [int(s)] for the text of an optionally signed decimal numeral; anything
    else raises [ValueError]. *)
Definition int (s : string) : result Z :=
  match NilZero.int_of_string s with
  | Some d => Ok (Z.of_int d)
  | None => Raise ValueError
  end.

Fixpoint traverse {A B} (f : A -> result B) (l : list A) : result (list B) :=
  match l with
  | [] => Ok []
  | a :: tl =>
      match f a with
      | Raise e => Raise e
      | Ok b =>
          match traverse f tl with
          | Raise e => Raise e
          | Ok bs => Ok (b :: bs)
          end
      end
  end.

(** A dictionary keeps its items in insertion order; setting a key that is
    present replaces the value where the key stands. *)
Definition dict (K V : Type) : Type := list (K * V).

Fixpoint dict_set {K V} (eqb : K -> K -> bool) (d : dict K V) (k : K) (v : V)
  : dict K V :=
  match d with
  | [] => [(k, v)]
  | (k', v') :: tl =>
      if eqb k' k then (k', v) :: tl else (k', v') :: dict_set eqb tl k v
  end.

Definition dict_of_items {K V} (eqb : K -> K -> bool) (items : list (K * V))
  : dict K V :=
  fold_left (fun d kv => dict_set eqb d (fst kv) (snd kv)) items [].

Fixpoint dict_get {K V} (eqb : K -> K -> bool) (d : dict K V) (k : K)
  : result V :=
  match d with
  | [] => Raise KeyError
  | (k', v') :: tl => if eqb k' k then Ok v' else dict_get eqb tl k
  end.

Definition keys {K V} (d : dict K V) : list K := map fst d.
Definition values {K V} (d : dict K V) : list V := map snd d.

(** [enumerate(l)] *)
Definition enumerate {A} (l : list A) : list (Z * A) :=
  combine (map Z.of_nat (seq 0 (List.length l))) l.

(** ** Base64 *)

Definition b64_alphabet : list ascii :=
  list_ascii_of_string
    "ABCDEFGHIJKLMNOPQRSTUVWXYZabcdefghijklmnopqrstuvwxyz0123456789+/".

Definition b64_pad : ascii := "="%char.

Definition b64_char (n : Z) : ascii := nth (Z.to_nat n) b64_alphabet b64_pad.

Fixpoint b64_groups (bs : list Z) : list ascii :=
  match bs with
  | a :: b :: c :: tl =>
      b64_char (a / 4) :: b64_char (a mod 4 * 16 + b / 16)
      :: b64_char (b mod 16 * 4 + c / 64) :: b64_char (c mod 64)
      :: b64_groups tl
  | [a; b] =>
      [b64_char (a / 4); b64_char (a mod 4 * 16 + b / 16);
       b64_char (b mod 16 * 4); b64_pad]
  | [a] => [b64_char (a / 4); b64_char (a mod 4 * 16); b64_pad; b64_pad]
  | [] => []
  end.

Definition byte_value (b : Byte.byte) : Z := Z.of_N (Byte.to_N b).

(** [base64.b64encode(bs).decode('utf-8')] *)
Definition b64encode (bs : list Byte.byte) : string :=
  string_of_list_ascii (b64_groups (map byte_value bs)).

(** The decoder, the inverse used to say that a text is base64. *)
Fixpoint b64_index_from (i : Z) (alphabet : list ascii) (c : ascii) : option Z :=
  match alphabet with
  | [] => None
  | a :: tl => if Ascii.eqb a c then Some i else b64_index_from (i + 1) tl c
  end.
Definition b64_index (c : ascii) : option Z := b64_index_from 0 b64_alphabet c.

Fixpoint b64_ungroup (cs : list ascii) : option (list Z) :=
  match cs with
  | [] => Some []
  | [c0; c1; c2; c3] =>
      match b64_index c0, b64_index c1 with
      | Some s0, Some s1 =>
          if Ascii.eqb c3 b64_pad then
            if Ascii.eqb c2 b64_pad then
              if s1 mod 16 =? 0 then Some [s0 * 4 + s1 / 16] else None
            else
              match b64_index c2 with
              | Some s2 =>
                  if s2 mod 4 =? 0
                  then Some [s0 * 4 + s1 / 16; s1 mod 16 * 16 + s2 / 4]
                  else None
              | None => None
              end
          else
            match b64_index c2, b64_index c3 with
            | Some s2, Some s3 =>
                Some [s0 * 4 + s1 / 16; s1 mod 16 * 16 + s2 / 4;
                      s2 mod 4 * 64 + s3]
            | _, _ => None
            end
      | _, _ => None
      end
  | c0 :: c1 :: c2 :: c3 :: tl =>
      match b64_index c0, b64_index c1, b64_index c2, b64_index c3,
            b64_ungroup tl with
      | Some s0, Some s1, Some s2, Some s3, Some bs =>
          Some (s0 * 4 + s1 / 16 :: s1 mod 16 * 16 + s2 / 4
                :: s2 mod 4 * 64 + s3 :: bs)
      | _, _, _, _, _ => None
      end
  | _ => None
  end.

Definition is_byte (z : Z) : Prop := 0 <= z < 256.

Definition b64decode (s : string) : option (list Byte.byte) :=
  match b64_ungroup (list_ascii_of_string s) with
  | Some zs =>
      match traverse (fun z => match Byte.of_N (Z.to_N z) with
                               | Some b => Ok b
                               | None => Raise ValueError
                               end) zs with
      | Ok bs => Some bs
      | Raise _ => None
      end
  | None => None
  end.

(** ** The application *)

Section App.

(** The floating-point numbers of the forecast, and [f'{demand:.0f}']. *)
Variable float : Type.
Variable format_0f : float -> string.

(** What is drawn on the axes.  [Text x y s] is [ax.text(x, y, s)]: with no
    transform given, [x] and [y] are data coordinates, as those of the lines
    and annotations are. *)
Inductive Artist : Type :=
| HistoricalLine (xs : list Z) (ys : list (option Z))
                 (label marker linestyle color : string)
| ForecastLine (xs : list Z) (ys : list float)
               (label marker linestyle color : string)
| Text (x y : Q) (s : string)
| Annotate (s : string) (x : Z) (y : float) (color : string).

Record Figure : Type := mkFigure {
  artists : list Artist;
  xlabel : string;
  ylabel : string;
  title : string;
  xlim : Z * Z
}.

(** [plt.savefig(buffer, format='png', bbox_inches='tight')] followed by
    [buffer.getvalue()]: the bytes of the image, or the exception the
    rasteriser raises (a figure whose tight bounding box is too large to
    rasterise, for one). *)
Variable savefig : Figure -> result (list Byte.byte).

(** [ax.plot(xs, ys, ...)]: the two sequences must have the same length. *)
Definition plot {A} (line : list Z -> list A -> Artist) (xs : list Z)
  (ys : list A) : result Artist :=
  if Nat.eqb (List.length xs) (List.length ys) then Ok (line xs ys)
  else Raise ValueError.

Definition no_historical_data : string :=
  "No historical data available for the selected product between 2015-2024.".
Definition no_forecast_data : string :=
  "No forecast data available between 2025-2029.".

Definition historical_figure (arts : list Artist) (product_code : string)
  : Figure :=
  mkFigure arts "Year" "Product Demand"
    (String.append "Historical Yearly Demand for "
       (String.append product_code " "))
    (let min_year := 2015 in let max_year := 2024 in
     (min_year - 1, max_year + 1)).

Definition forecast_figure (arts : list Artist) (product_code : string)
  : Figure :=
  mkFigure arts "Year" "Product Demand"
    (String.append "Forecasted Yearly Demand for "
       (String.append product_code " "))
    (let min_year := 2025 in let max_year := 2029 in
     (min_year - 1, max_year + 1)).

Definition create_historical_plot (historical_data : Series)
  (product_code : string) : result string :=
  match
    match historical_data with
    | _ :: _ =>
        let years := series_years historical_data in
        match plot (fun xs ys => HistoricalLine xs ys "Historical Demand"
                                   "o" "-" "blue")
                   years (map snd historical_data) with
        | Ok line => Ok [line]
        | Raise e => Raise e
        end
    | [] => Ok [Text (1 # 2) (1 # 2) no_historical_data]
    end
  with
  | Raise e => Raise e
  | Ok arts =>
      match savefig (historical_figure arts product_code) with
      | Raise e => Raise e
      | Ok image_png => Ok (b64encode image_png)
      end
  end.

Definition in_forecast_window (y : Z) : bool := (2025 <=? y) && (y <=? 2029).

Definition create_forecast_plot (forecast_data : dict string float)
  (product_code : string) : result string :=
  match traverse int (keys forecast_data) with
  | Raise e => Raise e
  | Ok forecast_years =>
      let forecast_years := filter in_forecast_window forecast_years in
      match traverse (fun y => match dict_get String.eqb forecast_data (str y)
                               with
                               | Ok v => Ok (y, v)
                               | Raise e => Raise e
                               end) forecast_years with
      | Raise e => Raise e
      | Ok items =>
          let forecast_values := dict_of_items Z.eqb items in
          match
            match forecast_values with
            | _ :: _ =>
                match plot (fun xs ys => ForecastLine xs ys
                                           "Forecasted Demand " "x" "--" "red")
                           forecast_years (values forecast_values) with
                | Ok line =>
                    Ok (line :: map (fun yd => Annotate (format_0f (snd yd))
                                                 (fst yd) (snd yd) "green")
                                    forecast_values)
                | Raise e => Raise e
                end
            | [] => Ok [Text (1 # 2) (1 # 2) no_forecast_data]
            end
          with
          | Raise e => Raise e
          | Ok arts =>
              match savefig (forecast_figure arts product_code) with
              | Raise e => Raise e
              | Ok image_png => Ok (b64encode image_png)
              end
          end
      end
  end.

(** ** The page *)

(** The variables the handler passes to the template.  [yearly_demand_table]
    and [historical_demand_table] are always [None] and the template never
    reads them; the list of products is the same on every page. *)
Record Context : Type := mkContext {
  ctx_product_code : option string;
  ctx_forecast : option (dict string float);
  ctx_error : option string;
  ctx_historical_plot_url : option string;
  ctx_forecast_plot_url : option string
}.

(** What the template shows: one field per [{% if ... %}] block. *)
Record Page : Type := mkPage {
  forecast_block : option (option string * list (string * float));
  error_block : option string;
  historical_block : option (option string * string);
  forecast_plot_block : option (option string * string)
}.

Definition truthy_string (s : option string) : option string :=
  match s with
  | Some (String c tl) => Some (String c tl)
  | _ => None
  end.

Definition render_template_string (ctx : Context) : Page :=
  mkPage
    (match ctx_forecast ctx with
     | Some (item :: items) => Some (ctx_product_code ctx, item :: items)
     | _ => None
     end)
    (truthy_string (ctx_error ctx))
    (option_map (pair (ctx_product_code ctx))
       (truthy_string (ctx_historical_plot_url ctx)))
    (option_map (pair (ctx_product_code ctx))
       (truthy_string (ctx_forecast_plot_url ctx))).

(** ** Forecaster *)

(** The fitted model, [ARIMA(data, order=order).fit()] and
    [model_fit.forecast(steps=steps)] of statsmodels. *)
Variable ARIMAResults : Type.
Variable ARIMA_fit : Series -> nat * nat * nat -> result ARIMAResults.
Variable ARIMA_forecast : ARIMAResults -> nat -> result (list float).

Definition train_arima (data : Series) : option ARIMAResults :=
  match ARIMA_fit data (5, 1, 0)%nat with
  | Ok model_fit => Some model_fit
  | Raise _ => None
  end.

Definition predict_demand (model_fit : ARIMAResults) (steps : nat)
  : option (list float) :=
  match ARIMA_forecast model_fit steps with
  | Ok forecast => Some forecast
  | Raise _ => None
  end.

Definition get_printable_demand (product_code : string) : option Series := None.

(** ** Request handler *)

Variable to_datetime : list Cell -> Cell -> option Timestamp.

Inductive Request : Type :=
| GET
| POST (form : list (string * string)).

(** [request.form[key]] *)
Definition form_get (form : list (string * string)) (key : string)
  : result string :=
  match find (fun kv => String.eqb (fst kv) key) form with
  | Some kv => Ok (snd kv)
  | None => Raise BadRequestKeyError
  end.

Definition no_data_message : string :=
  "No data found for this product or no data between 2015-2024.".
Definition training_failed_message : string := "Failed to train ARIMA model.".
Definition forecast_failed_message : string := "Failed to generate forecast.".

(** [series.index[-1].year] *)
Definition last_year (series : Series) : result Z :=
  match rev series with
  | p :: _ => Ok (year (fst p))
  | [] => Raise IndexError
  end.

Definition forecast_dict (series : Series) (forecast_values : list float)
  : result (dict string float) :=
  match traverse (fun id => match last_year series with
                            | Ok l => Ok (str (l + fst id + 1), snd id)
                            | Raise e => Raise e
                            end) (enumerate forecast_values) with
  | Ok items => Ok (dict_of_items String.eqb items)
  | Raise e => Raise e
  end.

Definition forecast_window (forecast : dict string float)
  : result (dict string float) :=
  match traverse (fun yd => match int (fst yd) with
                            | Ok y => Ok (in_forecast_window y, yd)
                            | Raise e => Raise e
                            end) forecast with
  | Ok marked => Ok (dict_of_items String.eqb
                       (map snd (filter fst marked)))
  | Raise e => Raise e
  end.

Definition is_empty (s : Series) : bool :=
  match s with [] => true | _ => false end.

(** The handler once the two series are built: from here on no data frame is
    touched. *)
Definition respond (product_code : string) (series : Series)
  (historical_data : option Series) : result Page :=
  let error : option string := None in
  let historical_plot_url : option string := None in
  let forecast_plot_url : option string := None in
  match is_empty series, historical_data with
  | false, Some (p :: tl) =>
      let historical_data := p :: tl in
      match train_arima series with
      | None =>
          let error := Some training_failed_message in
          Ok (render_template_string
                (mkContext (Some product_code) None error
                   historical_plot_url forecast_plot_url))
      | Some model_fit =>
          match predict_demand model_fit 5 with
          | None =>
              let error := Some forecast_failed_message in
              Ok (render_template_string
                    (mkContext (Some product_code) None error
                       historical_plot_url forecast_plot_url))
          | Some forecast_values =>
              forecast <- forecast_dict series forecast_values ;;
              forecast <- forecast_window forecast ;;
              historical_plot_url <-
                create_historical_plot historical_data product_code ;;
              forecast_plot_url <-
                create_forecast_plot forecast product_code ;;
              Ok (render_template_string
                    (mkContext (Some product_code) (Some forecast) None
                       (Some historical_plot_url) (Some forecast_plot_url)))
          end
      end
  | _, _ =>
      let error := Some no_data_message in
      Ok (render_template_string
            (mkContext (Some product_code) None error
               historical_plot_url forecast_plot_url))
  end%result.

Definition index (request : Request) : M Page :=
  let forecast : option (dict string float) := None in
  let error : option string := None in
  let historical_plot_url : option string := None in
  let forecast_plot_url : option string := None in
  match request with
  | POST form =>
      product_code <- lift (form_get form "product_code") ;;
      series <- prepare_data to_datetime product_code ;;
      historical_data <- get_yearly_demand to_datetime product_code ;;
      lift (respond product_code series historical_data)
  | GET =>
      ret (render_template_string
             (mkContext None forecast error historical_plot_url
                forecast_plot_url))
  end.

End App.

Arguments Text {float} x y s.
Arguments HistoricalLine {float} xs ys label marker linestyle color.

(** ** Start-up load *)

(** A row of the frame [pd.read_csv] returns. *)
Record CsvRow : Type := mkCsvRow {
  csv_Product_Code : Cell;
  csv_Date : Cell;
  csv_Order_Demand : Cell
}.

(** A value of [pd.to_numeric(..., errors='coerce')]: NaN for a cell that is
    missing or is not a number, an infinity, or a finite number. *)
Inductive Numeric : Type :=
| NaN
| Infinity
| Finite (q : Q).

Definition int64_min : Z := - 2 ^ 63.
Definition int64_max : Z := 2 ^ 63 - 1.

(** [astype(int)] on a finite float: the fraction is dropped; a value that
    does not fit 64 bits becomes the least integer, as the x86-64 conversion
    gives it. *)
Definition astype_int (q : Q) : Z :=
  let z := Z.quot (Qnum q) (Z.pos (Qden q)) in
  if (int64_min <=? z) && (z <=? int64_max) then z else int64_min.

Section Startup.

(** [pd.to_numeric(column, errors='coerce')] at one cell of the column.  The
    column is given too: its type decides how exactly a number is kept. *)
Variable to_numeric : list Cell -> Cell -> Numeric.

Definition is_nan (n : Numeric) : bool :=
  match n with NaN => true | _ => false end.

(** The module-level [try] block: [None] is a process that has exited. *)
Definition load (read_csv : result (list CsvRow)) : option DataFrame :=
  match read_csv with
  | Raise _ => None
  | Ok csv =>
      let column := map csv_Order_Demand csv in
      let numeric :=
        map (fun r => (r, to_numeric column (csv_Order_Demand r))) csv in
      let kept := filter (fun rn => negb (is_nan (snd rn))) numeric in
      match traverse (fun rn =>
                        match snd rn with
                        | Finite q =>
                            Ok (mkRow (csv_Product_Code (fst rn))
                                      (RawDate (csv_Date (fst rn)))
                                      (astype_int q))
                        | _ => Raise IntCastingNaNError
                        end) kept with
      | Ok rs => Some (mkFrame false rs)
      | Raise _ => None
      end
  end.

(** The store of a process that has started: [data] and nothing else. *)
Definition startup (read_csv : result (list CsvRow)) : option Store :=
  option_map (fun f => [f]) (load read_csv).

End Startup.

(** ** The series as a function of the dataset

    What the two builders compute, read off the frame [data] refers to. *)

Section YearlySeries.

Variable to_datetime : list Cell -> Cell -> option Timestamp.

Definition product_rows (f : DataFrame) (product_code : string) : list Row :=
  filter (fun r => code_eqb (Product_Code r) product_code) (rows f).

(** The rows with their dates parsed, each in the column of these rows. *)
Definition dated (rs : list Row) : list (option Timestamp * Z) :=
  map (fun r => (cell_to_datetime to_datetime (date_column rs) (Date r),
                 Order_Demand r)) rs.

(** The dated records of a product: timestamp and quantity. *)
Definition product_points (f : DataFrame) (product_code : string)
  : list (Timestamp * Z) :=
  valid_points (dated (product_rows f product_code)).

Definition window (s : Series) : Series := year_le 2024 (year_ge 2015 s).

Definition yearly_series (f : DataFrame) (product_code : string)
  : option Series :=
  match product_rows f product_code with
  | [] => None
  | rs =>
      if indexed f then None
      else
        match resample_Y_sum (dated rs) with
        | Ok s => Some (window s)
        | Raise _ => None
        end
  end.

Definition prepared_series (f : DataFrame) (product_code : string) : Series :=
  match product_rows f product_code with
  | [] => []
  | rs =>
      if indexed f then []
      else
        match resample_Y_sum (dated rs) with
        | Ok s => window (ffill s)
        | Raise _ => []
        end
  end.

Definition parsed (rs : list Row) : list Row :=
  map (fun r => mkRow (Product_Code r)
                      (ParsedDate
                         (cell_to_datetime to_datetime (date_column rs)
                            (Date r)))
                      (Order_Demand r)) rs.

End YearlySeries.

Definition in_history_window (y : Z) : bool := (2015 <=? y) && (y <=? 2024).

Definition no_nan (s : Series) : Prop :=
  forall p, In p s -> exists z, snd p = Some z.

(** The first and the last year in which a list of dated records has one. *)
Definition first_year (pts : list (Timestamp * Z)) : Z :=
  match pts with
  | [] => 0
  | p :: tl => min_year (year (fst p)) tl
  end.
Definition final_year (pts : list (Timestamp * Z)) : Z :=
  match pts with
  | [] => 0
  | p :: tl => max_year (year (fst p)) tl
  end.

(** Whether pandas can build the yearly bins of these records: no record
    dated in 1677, none in 2262, and none on the last day of 2261. *)
Definition bins_in_bounds (pts : list (Timestamp * Z)) : bool :=
  edges_in_bounds (first_year pts) (final_year pts) pts.

(** ** What the handler builds *)

Section HandlerDescriptions.

Variable float : Type.
Variable format_0f : float -> string.

(** The five (or however many) values of a forecast, each with the year it is
    for: the years after [last]. *)
Definition forecast_items (last : Z) (forecast_values : list float)
  : list (Z * float) :=
  map (fun id => (last + fst id + 1, snd id)) (enumerate forecast_values).

Definition shown_items (last : Z) (forecast_values : list float)
  : list (Z * float) :=
  filter (fun yd => in_forecast_window (fst yd))
         (forecast_items last forecast_values).

Definition str_keys (items : list (Z * float)) : dict string float :=
  map (fun yd => (str (fst yd), snd yd)) items.

Definition historical_artists (historical_data : Series) : list (Artist float) :=
  match historical_data with
  | [] => [Text (1 # 2) (1 # 2) no_historical_data]
  | _ => [HistoricalLine (series_years historical_data)
            (map snd historical_data) "Historical Demand" "o" "-" "blue"]
  end.

Definition forecast_artists (items : list (Z * float)) : list (Artist float) :=
  match items with
  | [] => [Text (1 # 2) (1 # 2) no_forecast_data]
  | _ => ForecastLine (keys items) (values items) "Forecasted Demand "
           "x" "--" "red"
         :: map (fun yd => Annotate (format_0f (snd yd)) (fst yd) (snd yd)
                             "green") items
  end.

(** The forecast list a page shows, empty when it shows none. *)
Definition displayed_forecast (page : Page float) : list (string * float) :=
  match forecast_block page with
  | Some (_, items) => items
  | None => []
  end.

(** The page of a failure: the message and nothing else. *)
Definition error_page (message : string) : Page float :=
  mkPage None (Some message) None None.

(** The text a chart builder returns for what the rasteriser returned. *)
Definition encoded (image : result (list Byte.byte)) : result string :=
  match image with
  | Ok image_png => Ok (b64encode image_png)
  | Raise e => Raise e
  end.

(** The page of a success: the forecast entries and the two images. *)
Definition success_page (product_code : string) (items : list (Z * float))
  (historical_png forecast_png : list Byte.byte) : Page float :=
  render_template_string
    (mkContext (Some product_code) (Some (str_keys items)) None
       (Some (b64encode historical_png)) (Some (b64encode forecast_png))).

(** What a request that passed the three checks ends in: the page of a
    success when both charts are rasterised, the historical one first, and
    else the exception of the rasteriser. *)
Definition success_result (product_code : string) (items : list (Z * float))
  (historical_image forecast_image : result (list Byte.byte))
  : result (Page float) :=
  match historical_image with
  | Raise e => Raise e
  | Ok historical_png =>
      match forecast_image with
      | Raise e => Raise e
      | Ok forecast_png =>
          Ok (success_page product_code items historical_png forecast_png)
      end
  end.

End HandlerDescriptions.

(** ** The list of products *)

Definition cell_eqb (a b : Cell) : bool :=
  match a, b with
  | Str x, Str y => String.eqb x y
  | Num x, Num y => Qeq_bool x y
  | Missing, Missing => true
  | _, _ => false
  end.

(** [s.unique()]: the values in the order in which they first appear, a
    missing value among them. *)
Fixpoint unique (l : list Cell) : list Cell :=
  match l with
  | [] => []
  | c :: tl => c :: filter (fun d => negb (cell_eqb c d)) (unique tl)
  end.

(** [products = data['Product_Code'].unique().tolist()] *)
Definition products (f : DataFrame) : list Cell :=
  unique (map Product_Code (rows f)).

(** ** Exact sums and plotted points *)

Definition exact_sum (l : list Z) : Z := fold_right Z.add 0 l.

(** The quantities of the records of year [y]. *)
Definition year_quantities (pts : list (Timestamp * Z)) (y : Z) : list Z :=
  map snd (filter (fun p => year (fst p) =? y) pts).



(** ** Instances used to run the program on concrete inputs *)

(** A parser for a column of dates written year/month/day in decimal, as the
    demand file has them: anything else in it, and a missing cell, is
    NaT. *)
Fixpoint split_on (sep : ascii) (s : string) : list string :=
  match s with
  | EmptyString => [EmptyString]
  | String c tl =>
      if Ascii.eqb c sep then EmptyString :: split_on sep tl
      else
        match split_on sep tl with
        | [] => [String c EmptyString]
        | hd :: rest => String c hd :: rest
        end
  end.

Definition numeral (s : string) : option Z :=
  option_map Z.of_uint (NilZero.uint_of_string s).

Definition days_in_month (y m : Z) : Z :=
  if (m =? 2) then
    if ((y mod 4 =? 0) && negb (y mod 100 =? 0)) || (y mod 400 =? 0)
    then 29 else 28
  else if (m =? 4) || (m =? 6) || (m =? 9) || (m =? 11) then 30 else 31.

Definition to_datetime_ymd (column : list Cell) (cell : Cell)
  : option Timestamp :=
  match cell with
  | Str s =>
      match map numeral (split_on "/"%char s) with
      | [Some y; Some m; Some d] =>
          if (1678 <=? y) && (y <=? 2261) && (1 <=? m) && (m <=? 12)
             && (1 <=? d) && (d <=? days_in_month y m)
          then Some (mkTimestamp y m d) else None
      | _ => None
      end
  | _ => None
  end.

(** Quantities read as numbers, or written as optionally signed decimal
    integers; any other text, and a missing cell, is NaN. *)
Definition to_numeric_decimal (column : list Cell) (cell : Cell) : Numeric :=
  match cell with
  | Missing => NaN
  | Num q => Finite q
  | Str s =>
      match NilZero.int_of_string s with
      | Some d => Finite (inject_Z (Z.of_int d))
      | None => NaN
      end
  end.

Definition record (product_code date : string) (quantity : Z) : Row :=
  mkRow (Str product_code) (RawDate (Str date)) quantity.

(** A forecaster that needs [p + d + 1] points and repeats the last value. *)
Definition naive_fit (s : Series) (order : nat * nat * nat)
  : result (option Z) :=
  let '(p, d, _) := order in
  if Nat.ltb (List.length s) (p + d + 1) then Raise LibraryError
  else Ok (match rev s with p :: _ => snd p | [] => None end).

Definition naive_forecast (m : option Z) (steps : nat) : result (list Q) :=
  match m with
  | Some z => Ok (repeat (inject_Z z) steps)
  | None => Raise LibraryError
  end.

(** A forecaster that fits every series and repeats the last value. *)
Definition lenient_fit (s : Series) (order : nat * nat * nat)
  : result (option Z) :=
  Ok (match rev s with p :: _ => Some (match snd p with
                                       | Some z => z
                                       | None => 0
                                       end)
                     | [] => Some 0 end).

(** Rasterisers: one whose image is empty, and one that fails on a figure
    without a line, as matplotlib does on the figure of a "no data" message,
    and returns one byte for any other. *)
Definition no_png (A : Type) (fig : A) : result (list Byte.byte) := Ok [].
Definition is_text {float} (a : Artist float) : bool :=
  match a with
  | Text _ _ _ => true
  | _ => false
  end.
Definition strict_png (fig : Figure Q) : result (list Byte.byte) :=
  if forallb is_text (artists fig) then Raise ValueError else Ok [Byte.x89].
Definition no_format (q : Q) : string := EmptyString.

(** Product A1 has records in 2012, 2015 and 2021, B2 one record in 2016, C3
    one record without a readable date. *)
Definition demo_frame : DataFrame :=
  mkFrame false
    [record "A1" "2015/3/1" 60; record "A1" "2015/7/9" 40;
     record "B2" "2016/5/5" 7; record "A1" "2021/12/31" 120;
     record "A1" "2012/1/1" 5; record "C3" "n/a" 3].

Definition demo_series : Series :=
  [(year_end 2015, Some 100); (year_end 2016, Some 0);
   (year_end 2017, Some 0); (year_end 2018, Some 0);
   (year_end 2019, Some 0); (year_end 2020, Some 0);
   (year_end 2021, Some 120)].

Definition demo_index : Request -> M (Page Q) :=
  index no_format (@no_png (Figure Q)) naive_fit naive_forecast
    to_datetime_ymd.

(** A rasteriser whose image is never empty. *)
Definition one_byte_png (A : Type) (fig : A) : result (list Byte.byte) :=
  Ok [Byte.x89].

(** Product D4 has three records, in 2022, 2023 and 2024; product E5 two, in
    2015 and 2016. *)
Definition demo_short : DataFrame :=
  mkFrame false
    [record "D4" "2022/2/1" 10; record "D4" "2023/2/1" 20;
     record "D4" "2024/2/1" 30; record "E5" "2015/6/1" 100;
     record "E5" "2016/6/1" 120].

Definition demo_short_series : Series :=
  [(year_end 2022, Some 10); (year_end 2023, Some 20);
   (year_end 2024, Some 30)].

Definition demo_E5_series : Series :=
  [(year_end 2015, Some 100); (year_end 2016, Some 120)].

(** The rows of A1 alone, and a mapping of three years to values. *)
Definition demo_A1 : DataFrame :=
  mkFrame false
    [record "A1" "2015/3/1" 60; record "A1" "2015/7/9" 40;
     record "A1" "2021/12/31" 120; record "A1" "2012/1/1" 5].

Definition demo_items : list (Z * Q) :=
  [(2024, inject_Z 10); (2025, inject_Z 20); (2030, inject_Z 30)].

Definition demo_index_png : Request -> M (Page Q) :=
  index no_format (@one_byte_png (Figure Q)) naive_fit naive_forecast
    to_datetime_ymd.

Definition demo_index_strict : Request -> M (Page Q) :=
  index no_format strict_png lenient_fit naive_forecast to_datetime_ymd.

(** Product F6 has a record on the last day of 2261. *)
Definition demo_late : DataFrame :=
  mkFrame false [record "F6" "2020/1/1" 1; record "F6" "2261/12/31" 9].

(** A dataset whose product codes were read as numbers. *)
Definition demo_numeric : DataFrame :=
  mkFrame false
    [mkRow (Num (inject_Z 123)) (RawDate (Str "2015/3/1")) 60;
     mkRow (Num (inject_Z 456)) (RawDate (Str "2016/3/1")) 40].

(** * Properties *)

(** ** The store: objects are allocated at the end and updated in place *)

Lemma nth_error_snoc (st : Store) (f : DataFrame) :
  nth_error (st ++ [f]) (List.length st) = Some f.
Proof.
  induction st as [|g st IH]; simpl; auto.
Qed.

Lemma update_snoc (st : Store) (f g : DataFrame) :
  update (st ++ [f]) (List.length st) g = st ++ [g].
Proof.
  induction st as [|h st IH]; simpl; [reflexivity|].
  now rewrite IH.
Qed.

Lemma bind_run {A B} (m : M A) (k : A -> M B) (st st' : Store) (a : A) :
  m st = (Ok a, st') -> bind m k st = k a st'.
Proof.
  intros H. unfold bind. now rewrite H.
Qed.

Lemma bind_raise {A B} (m : M A) (k : A -> M B) (st st' : Store) (e : exn) :
  m st = (Raise e, st') -> bind m k st = (Raise e, st').
Proof.
  intros H. unfold bind. now rewrite H.
Qed.

Arguments bind_run {A B m} k {st st' a} _.
Arguments bind_raise {A B m} k {st st' e} _.

Lemma read_last (st : Store) (f : DataFrame) :
  read (List.length st) (st ++ [f]) = (Ok f, st ++ [f]).
Proof.
  unfold read. now rewrite nth_error_snoc.
Qed.

Lemma write_last (st : Store) (f g : DataFrame) :
  write (List.length st) g (st ++ [f]) = (Ok tt, st ++ [g]).
Proof.
  unfold write. now rewrite update_snoc.
Qed.

Lemma select_product_run (f : DataFrame) (rest : Store) (pc : string) :
  select_product data pc (f :: rest)
  = (Ok (List.length (f :: rest)),
     (f :: rest) ++ [mkFrame (indexed f) (product_rows f pc)]).
Proof. reflexivity. Qed.

Lemma copy_last (st : Store) (f : DataFrame) :
  copy (List.length st) (st ++ [f])
  = (Ok (List.length (st ++ [f])), (st ++ [f]) ++ [f]).
Proof.
  unfold copy. rewrite (bind_run _ (read_last st f)). reflexivity.
Qed.

Lemma empty_last (st : Store) (f : DataFrame) :
  empty (List.length st) (st ++ [f])
  = (Ok (match rows f with [] => true | _ => false end), st ++ [f]).
Proof.
  unfold empty. rewrite (bind_run _ (read_last st f)). reflexivity.
Qed.

Section SeriesFacts.

Variable to_datetime : list Cell -> Cell -> option Timestamp.

Lemma datetime_index_parsed_in (column : list Cell) (rs : list Row) :
  datetime_index
    (map (fun r => mkRow (Product_Code r)
                         (ParsedDate
                            (cell_to_datetime to_datetime column (Date r)))
                         (Order_Demand r)) rs)
  = Ok (map (fun r => (cell_to_datetime to_datetime column (Date r),
                       Order_Demand r)) rs).
Proof.
  induction rs as [|r rs IH]; [reflexivity|].
  cbn -[cell_to_datetime]. now rewrite IH.
Qed.

Lemma datetime_index_parsed (rs : list Row) :
  datetime_index (parsed to_datetime rs) = Ok (dated to_datetime rs).
Proof.
  apply datetime_index_parsed_in.
Qed.

Lemma assign_last (st : Store) (rs : list Row) :
  assign_Date_to_datetime to_datetime (List.length st) (st ++ [mkFrame false rs])
  = (Ok tt, st ++ [mkFrame false (parsed to_datetime rs)]).
Proof.
  unfold assign_Date_to_datetime.
  rewrite (bind_run _ (read_last st _)). simpl indexed. cbv iota.
  apply write_last.
Qed.

Lemma assign_last_indexed (st : Store) (rs : list Row) :
  assign_Date_to_datetime to_datetime (List.length st) (st ++ [mkFrame true rs])
  = (Raise KeyError, st ++ [mkFrame true rs]).
Proof.
  unfold assign_Date_to_datetime.
  rewrite (bind_run _ (read_last st _)). reflexivity.
Qed.

Lemma set_index_last (st : Store) (rs : list Row) :
  set_index_Date (List.length st) (st ++ [mkFrame false rs])
  = (Ok tt, st ++ [mkFrame true rs]).
Proof.
  unfold set_index_Date.
  rewrite (bind_run _ (read_last st _)). simpl indexed. cbv iota.
  apply write_last.
Qed.

Lemma resample_last (st : Store) (rs : list Row) :
  resample_Order_Demand (List.length st) (st ++ [mkFrame true (parsed to_datetime rs)])
  = (resample_Y_sum (dated to_datetime rs), st ++ [mkFrame true (parsed to_datetime rs)]).
Proof.
  unfold resample_Order_Demand.
  rewrite (bind_run _ (read_last st _)). cbn [indexed rows].
  unfold bind, lift. rewrite datetime_index_parsed. reflexivity.
Qed.

(** The three steps on a fresh copy: parse the dates, index by them,
    aggregate by year.  Only the copy changes. *)
Lemma resample_copy_run {A} (k : Series -> M A) (st : Store) (rs : list Row) :
  (assign_Date_to_datetime to_datetime (List.length st) ;;;
   set_index_Date (List.length st) ;;;
   resampled <- resample_Order_Demand (List.length st) ;; k resampled)
    (st ++ [mkFrame false rs])
  = match resample_Y_sum (dated to_datetime rs) with
    | Ok s => k s (st ++ [mkFrame true (parsed to_datetime rs)])
    | Raise e => (Raise e, st ++ [mkFrame true (parsed to_datetime rs)])
    end.
Proof.
  rewrite (bind_run _ (assign_last st rs)).
  rewrite (bind_run _ (set_index_last st (parsed to_datetime rs))).
  unfold bind at 1. rewrite resample_last. reflexivity.
Qed.

Lemma resample_copy_indexed {A} (k : Series -> M A) (st : Store)
  (rs : list Row) :
  (assign_Date_to_datetime to_datetime (List.length st) ;;;
   set_index_Date (List.length st) ;;;
   resampled <- resample_Order_Demand (List.length st) ;; k resampled)
    (st ++ [mkFrame true rs])
  = (Raise KeyError, st ++ [mkFrame true rs]).
Proof.
  apply bind_raise, assign_last_indexed.
Qed.

(** [prepare_data] returns [prepared_series] of the dataset and leaves every
    object that existed before the call as it was. *)
Lemma prepare_data_run (f : DataFrame) (rest : Store) (pc : string) :
  exists extra,
    prepare_data to_datetime pc (f :: rest)
    = (Ok (prepared_series to_datetime f pc), (f :: rest) ++ extra).
Proof.
  unfold prepare_data, prepared_series.
  rewrite (bind_run _ (select_product_run f rest pc)).
  rewrite (bind_run _ (copy_last (f :: rest) _)).
  rewrite (bind_run _ (empty_last _ _)). cbn [rows].
  destruct (product_rows f pc) as [|r rs] eqn:Hsel.
  - eexists. unfold ret. rewrite <- app_assoc. reflexivity.
  - unfold try_except. destruct (indexed f) eqn:Hix.
    + rewrite resample_copy_indexed. eexists. unfold ret.
      rewrite <- app_assoc. reflexivity.
    + rewrite resample_copy_run.
      destruct (resample_Y_sum (dated to_datetime (r :: rs))) as [s|e];
        eexists; unfold ret, window; rewrite <- app_assoc; reflexivity.
Qed.

(** [get_yearly_demand] returns [yearly_series] of the dataset, likewise. *)
Lemma get_yearly_demand_run (f : DataFrame) (rest : Store) (pc : string) :
  exists extra,
    get_yearly_demand to_datetime pc (f :: rest)
    = (Ok (yearly_series to_datetime f pc), (f :: rest) ++ extra).
Proof.
  unfold get_yearly_demand, yearly_series.
  rewrite (bind_run _ (select_product_run f rest pc)).
  rewrite (bind_run _ (copy_last (f :: rest) _)).
  rewrite (bind_run _ (empty_last _ _)). cbn [rows].
  destruct (product_rows f pc) as [|r rs] eqn:Hsel.
  - eexists. unfold ret. rewrite <- app_assoc. reflexivity.
  - unfold try_except. destruct (indexed f) eqn:Hix.
    + rewrite resample_copy_indexed. eexists. unfold ret.
      rewrite <- app_assoc. reflexivity.
    + rewrite resample_copy_run.
      destruct (resample_Y_sum (dated to_datetime (r :: rs))) as [s|e];
        eexists; unfold ret, window; rewrite <- app_assoc; reflexivity.
Qed.

(** *** Forward fill *)

Lemma ffill_from_no_nan (s : Series) :
  no_nan s -> forall prev, ffill_from prev s = s.
Proof.
  induction s as [|[t v] s IH]; intros Hs prev; [reflexivity|].
  simpl. destruct (Hs (t, v) (or_introl eq_refl)) as [z Hz].
  simpl in Hz. subst v. f_equal. apply IH.
  intros p Hp. apply Hs. now right.
Qed.

Lemma resample_no_nan (l : list (option Timestamp * Z)) (s : Series) :
  resample_Y_sum l = Ok s -> no_nan s.
Proof.
  unfold resample_Y_sum. destruct l as [|x l]; [intros [= <-] p []|].
  destruct (valid_points (x :: l)) as [|[t0 v0] tl]; [discriminate|].
  cbv zeta.
  destruct (edges_in_bounds (min_year (year t0) tl) (max_year (year t0) tl)
              ((t0, v0) :: tl)); [|discriminate].
  intros [= <-] p Hp. apply in_map_iff in Hp as [y [<- _]].
  simpl. eauto.
Qed.

Lemma ffill_resample (l : list (option Timestamp * Z)) (s : Series) :
  resample_Y_sum l = Ok s -> ffill s = s.
Proof.
  intros H. apply ffill_from_no_nan. eapply resample_no_nan; eauto.
Qed.

(** *** The year window *)

Lemma window_years (s : Series) (p : Timestamp * option Z) :
  In p (window s) <-> In p s /\ 2015 <= year (fst p) <= 2024.
Proof.
  unfold window, year_le, year_ge. rewrite !filter_In.
  rewrite Z.leb_le, Z.leb_le. tauto.
Qed.

(** *** The bins *)

Lemma in_year_range (lo hi y : Z) :
  In y (year_range lo hi) <-> lo <= y <= hi.
Proof.
  unfold year_range. rewrite in_map_iff. split.
  - intros [i [<- Hi]]. apply in_seq in Hi. lia.
  - intros H. exists (Z.to_nat (y - lo)). split; [lia|].
    apply in_seq. lia.
Qed.

Lemma min_year_le (l : list (Timestamp * Z)) (y0 : Z) :
  min_year y0 l <= y0 /\ forall p, In p l -> min_year y0 l <= year (fst p).
Proof.
  unfold min_year. revert y0.
  induction l as [|q l IH]; intros y0; simpl; [split; [lia|tauto]|].
  destruct (IH (Z.min y0 (year (fst q)))) as [H1 H2]. split; [lia|].
  intros p [<-|Hp]; [lia|auto].
Qed.

Lemma max_year_ge (l : list (Timestamp * Z)) (y0 : Z) :
  y0 <= max_year y0 l /\ forall p, In p l -> year (fst p) <= max_year y0 l.
Proof.
  unfold max_year. revert y0.
  induction l as [|q l IH]; intros y0; simpl; [split; [lia|tauto]|].
  destruct (IH (Z.max y0 (year (fst q)))) as [H1 H2]. split; [lia|].
  intros p [<-|Hp]; [lia|auto].
Qed.

Lemma min_year_attained (l : list (Timestamp * Z)) (y0 : Z) :
  min_year y0 l = y0 \/ exists p, In p l /\ min_year y0 l = year (fst p).
Proof.
  unfold min_year. revert y0.
  induction l as [|q l IH]; intros y0; simpl; [now left|].
  destruct (IH (Z.min y0 (year (fst q)))) as [H|[p [Hp H]]].
  - rewrite H. destruct (Z.min_spec y0 (year (fst q))) as [[_ ->]|[_ ->]];
      [now left|right; exists q; auto].
  - right. exists p. auto.
Qed.

Lemma max_year_attained (l : list (Timestamp * Z)) (y0 : Z) :
  max_year y0 l = y0 \/ exists p, In p l /\ max_year y0 l = year (fst p).
Proof.
  unfold max_year. revert y0.
  induction l as [|q l IH]; intros y0; simpl; [now left|].
  destruct (IH (Z.max y0 (year (fst q)))) as [H|[p [Hp H]]].
  - rewrite H. destruct (Z.max_spec y0 (year (fst q))) as [[_ ->]|[_ ->]];
      [right; exists q; auto|now left].
  - right. exists p. auto.
Qed.

Lemma first_year_spec (pts : list (Timestamp * Z)) :
  pts <> [] ->
  (exists p, In p pts /\ year (fst p) = first_year pts)
  /\ forall p, In p pts -> first_year pts <= year (fst p).
Proof.
  destruct pts as [|q tl]; [congruence|intros _]. simpl first_year. split.
  - destruct (min_year_attained tl (year (fst q))) as [H|[p [Hp H]]].
    + exists q. split; [now left|auto].
    + exists p. split; [now right|auto].
  - destruct (min_year_le tl (year (fst q))) as [H1 H2].
    intros p [<-|Hp]; auto.
Qed.

Lemma final_year_spec (pts : list (Timestamp * Z)) :
  pts <> [] ->
  (exists p, In p pts /\ year (fst p) = final_year pts)
  /\ forall p, In p pts -> year (fst p) <= final_year pts.
Proof.
  destruct pts as [|q tl]; [congruence|intros _]. simpl final_year. split.
  - destruct (max_year_attained tl (year (fst q))) as [H|[p [Hp H]]].
    + exists q. split; [now left|auto].
    + exists p. split; [now right|auto].
  - destruct (max_year_ge tl (year (fst q))) as [H1 H2].
    intros p [<-|Hp]; auto.
Qed.

(** The bins of [resample('Y').sum()], one per year from the first to the
    last, whenever some row has a date. *)
Lemma resample_bins (l : list (option Timestamp * Z)) :
  valid_points l <> [] ->
  bins_in_bounds (valid_points l) = true ->
  resample_Y_sum l
  = Ok (map (fun y => (year_end y, Some (year_total (valid_points l) y)))
            (year_range (first_year (valid_points l))
                        (final_year (valid_points l)))).
Proof.
  intros H Hb. unfold resample_Y_sum.
  destruct l as [|x l]; [now destruct H|].
  destruct (valid_points (x :: l)) as [|[t0 v0] tl]; [now destruct H|].
  unfold bins_in_bounds in Hb. cbn [first_year final_year fst] in Hb.
  cbv zeta. now rewrite Hb.
Qed.

(** When an edge of the bins is no timestamp, aggregation raises. *)
Lemma resample_out_of_bounds (l : list (option Timestamp * Z)) :
  valid_points l <> [] ->
  bins_in_bounds (valid_points l) = false ->
  resample_Y_sum l = Raise OutOfBoundsDatetime.
Proof.
  intros H Hb. unfold resample_Y_sum.
  destruct l as [|x l]; [now destruct H|].
  destruct (valid_points (x :: l)) as [|[t0 v0] tl]; [now destruct H|].
  unfold bins_in_bounds in Hb. cbn [first_year final_year fst] in Hb.
  cbv zeta. now rewrite Hb.
Qed.

Lemma resample_all_NaT (l : list (option Timestamp * Z)) :
  l <> [] -> valid_points l = [] -> resample_Y_sum l = Raise ValueError.
Proof.
  intros Hl H. unfold resample_Y_sum. destruct l; [congruence|].
  now rewrite H.
Qed.

Lemma year_total_no_record (pts : list (Timestamp * Z)) (y : Z) :
  (forall p, In p pts -> year (fst p) <> y) -> year_total pts y = 0.
Proof.
  intros H. unfold year_total.
  replace (filter (fun p => year (fst p) =? y) pts) with (@nil (Timestamp * Z));
    [reflexivity|].
  induction pts as [|p pts IH]; [reflexivity|]. simpl.
  destruct (Z.eqb_spec (year (fst p)) y) as [E|_].
  - exfalso. apply (H p); [now left|exact E].
  - apply IH. intros q Hq. apply H. now right.
Qed.

End SeriesFacts.

(** ** Python helpers *)

Lemma int_str (z : Z) : int (str z) = Ok z.
Proof.
  unfold int, str. rewrite NilZero.isi.
  - now rewrite DecimalZ.of_to.
  - destruct z; simpl; try discriminate.
    intros [= H]. now apply DecimalPos.Unsigned.to_uint_nonnil in H.
  - destruct z; simpl; try discriminate.
    intros [= H]. now apply DecimalPos.Unsigned.to_uint_nonnil in H.
Qed.

Lemma str_inj (a b : Z) : str a = str b -> a = b.
Proof.
  intros H. pose proof (int_str a) as Ha. rewrite H, int_str in Ha.
  congruence.
Qed.

Lemma traverse_ok {A B} (f : A -> result B) (g : A -> B) (l : list A) :
  (forall a, In a l -> f a = Ok (g a)) -> traverse f l = Ok (map g l).
Proof.
  induction l as [|a l IH]; intros H; [reflexivity|].
  simpl. rewrite (H a (or_introl eq_refl)), IH; [reflexivity|].
  intros b Hb. apply H. now right.
Qed.

Section DictFacts.

Variables (K V : Type) (eqb : K -> K -> bool).
Hypothesis eqb_eq : forall a b, eqb a b = true <-> a = b.

Lemma dict_set_fresh (d : dict K V) (k : K) (v : V) :
  ~ In k (keys d) -> dict_set eqb d k v = d ++ [(k, v)].
Proof.
  induction d as [|[k' v'] d IH]; intros H; [reflexivity|].
  simpl. destruct (eqb k' k) eqn:E.
  - apply eqb_eq in E. destruct H. now left.
  - rewrite IH; [reflexivity|]. intros Hin. apply H. now right.
Qed.

Lemma dict_of_items_from (items d : dict K V) :
  NoDup (keys (d ++ items)) ->
  fold_left (fun d kv => dict_set eqb d (fst kv) (snd kv)) items d
  = d ++ items.
Proof.
  revert d. induction items as [|[k v] items IH]; intros d H; simpl.
  - now rewrite app_nil_r.
  - assert (Hfresh : ~ In k (keys d)).
    { unfold keys in *. rewrite map_app in H. simpl in H.
      apply NoDup_remove_2 in H. intros Hin. apply H.
      apply in_or_app. now left. }
    rewrite dict_set_fresh by exact Hfresh.
    rewrite IH; rewrite <- app_assoc; [reflexivity|exact H].
Qed.

(** Items with distinct keys make the dictionary that lists them. *)
Lemma dict_of_items_nodup (items : list (K * V)) :
  NoDup (keys items) -> dict_of_items eqb items = items.
Proof.
  intros H. unfold dict_of_items. now rewrite dict_of_items_from.
Qed.

Lemma dict_get_in (d : dict K V) (k : K) (v : V) :
  NoDup (keys d) -> In (k, v) d -> dict_get eqb d k = Ok v.
Proof.
  induction d as [|[k' v'] d IH]; intros Hnd Hin; [destruct Hin|].
  simpl. inversion Hnd as [|? ? Hk Hd]; subst.
  destruct Hin as [[= -> ->]|Hin].
  - now rewrite (proj2 (eqb_eq k k) eq_refl).
  - destruct (eqb k' k) eqn:E.
    + apply eqb_eq in E. subst k'. destruct Hk.
      unfold keys. apply in_map_iff. now exists (k, v).
    + now apply IH.
Qed.

End DictFacts.

(** ** Base64: decoding undoes encoding *)

Lemma b64_index_char (n : Z) :
  0 <= n < 64 -> b64_index (b64_char n) = Some n.
Proof.
  intros H. rewrite <- (Z2Nat.id n) by lia.
  assert (Hn : (Z.to_nat n < 64)%nat) by lia.
  generalize dependent (Z.to_nat n). clear. intros m Hm.
  do 64 (destruct m as [|m]; [reflexivity|]). lia.
Qed.

Lemma b64_char_not_pad (n : Z) :
  0 <= n < 64 -> Ascii.eqb (b64_char n) b64_pad = false.
Proof.
  intros H. rewrite <- (Z2Nat.id n) by lia.
  assert (Hn : (Z.to_nat n < 64)%nat) by lia.
  generalize dependent (Z.to_nat n). clear. intros m Hm.
  do 64 (destruct m as [|m]; [reflexivity|]). lia.
Qed.

Lemma b64_ungroup_last (c0 c1 c2 c3 : ascii) :
  b64_ungroup [c0; c1; c2; c3]
  = match b64_index c0, b64_index c1 with
    | Some s0, Some s1 =>
        if Ascii.eqb c3 b64_pad then
          if Ascii.eqb c2 b64_pad then
            if s1 mod 16 =? 0 then Some [s0 * 4 + s1 / 16] else None
          else
            match b64_index c2 with
            | Some s2 =>
                if s2 mod 4 =? 0
                then Some [s0 * 4 + s1 / 16; s1 mod 16 * 16 + s2 / 4]
                else None
            | None => None
            end
        else
          match b64_index c2, b64_index c3 with
          | Some s2, Some s3 =>
              Some [s0 * 4 + s1 / 16; s1 mod 16 * 16 + s2 / 4;
                    s2 mod 4 * 64 + s3]
          | _, _ => None
          end
    | _, _ => None
    end.
Proof. reflexivity. Qed.

Lemma b64_ungroup_more (c0 c1 c2 c3 x : ascii) (r : list ascii) :
  b64_ungroup (c0 :: c1 :: c2 :: c3 :: x :: r)
  = match b64_index c0, b64_index c1, b64_index c2, b64_index c3,
          b64_ungroup (x :: r) with
    | Some s0, Some s1, Some s2, Some s3, Some bs =>
        Some (s0 * 4 + s1 / 16 :: s1 mod 16 * 16 + s2 / 4
              :: s2 mod 4 * 64 + s3 :: bs)
    | _, _, _, _, _ => None
    end.
Proof. reflexivity. Qed.

Lemma by_triples {A} (P : list A -> Prop) :
  P [] -> (forall a, P [a]) -> (forall a b, P [a; b]) ->
  (forall a b c tl, P tl -> P (a :: b :: c :: tl)) ->
  forall l, P l.
Proof.
  intros H0 H1 H2 H3.
  assert (H : forall l, P l /\ (forall a, P (a :: l))
                        /\ (forall a b, P (a :: b :: l))).
  { induction l as [|x l [IH0 [IH1 IH2]]]; [now auto|].
    repeat split; auto. }
  intros l. apply H.
Qed.

Lemma b64_ungroup_groups (zs : list Z) :
  Forall is_byte zs -> b64_ungroup (b64_groups zs) = Some zs.
Proof.
  unfold is_byte. induction zs as [|a|a b|a b c tl IH] using by_triples;
    intros Hz.
  - reflexivity.
  - inversion Hz as [|? ? Ha _]; subst.
    cbn [b64_groups]. rewrite b64_ungroup_last.
    rewrite !b64_index_char
      by (Z.div_mod_to_equations; lia).
    rewrite !Ascii.eqb_refl.
    replace (a mod 4 * 16 mod 16 =? 0) with true
      by (symmetry; apply Z.eqb_eq; Z.div_mod_to_equations; lia).
    do 2 f_equal. Z.div_mod_to_equations; lia.
  - inversion Hz as [|? ? Ha Hz']; subst.
    inversion Hz' as [|? ? Hb _]; subst.
    cbn [b64_groups]. rewrite b64_ungroup_last.
    rewrite !b64_index_char by (Z.div_mod_to_equations; lia).
    rewrite Ascii.eqb_refl.
    rewrite b64_char_not_pad by (Z.div_mod_to_equations; lia).
    replace (b mod 16 * 4 mod 4 =? 0) with true
      by (symmetry; apply Z.eqb_eq; Z.div_mod_to_equations; lia).
    f_equal. f_equal; [|f_equal]; Z.div_mod_to_equations; lia.
  - inversion Hz as [|? ? Ha Hz1]; subst.
    inversion Hz1 as [|? ? Hb Hz2]; subst.
    inversion Hz2 as [|? ? Hc Hz3]; subst.
    specialize (IH Hz3). cbn [b64_groups].
    assert (E0 : a / 4 * 4 + (a mod 4 * 16 + b / 16) / 16 = a)
      by (Z.div_mod_to_equations; lia).
    assert (E1 : (a mod 4 * 16 + b / 16) mod 16 * 16
                 + (b mod 16 * 4 + c / 64) / 4 = b)
      by (Z.div_mod_to_equations; lia).
    assert (E2 : (b mod 16 * 4 + c / 64) mod 4 * 64 + c mod 64 = c)
      by (Z.div_mod_to_equations; lia).
    destruct (b64_groups tl) as [|x r] eqn:Eg.
    + rewrite b64_ungroup_last.
      rewrite !b64_index_char by (Z.div_mod_to_equations; lia).
      rewrite b64_char_not_pad by (Z.div_mod_to_equations; lia).
      rewrite E0, E1, E2. simpl in IH. now injection IH as <-.
    + rewrite b64_ungroup_more, IH.
      rewrite !b64_index_char by (Z.div_mod_to_equations; lia).
      now rewrite E0, E1, E2.
Qed.

Lemma byte_value_is_byte (b : Byte.byte) : is_byte (byte_value b).
Proof.
  unfold is_byte, byte_value. pose proof (Byte.to_N_bounded b). lia.
Qed.

(** [base64.b64decode(base64.b64encode(bs)) == bs] *)
Lemma b64decode_b64encode (bs : list Byte.byte) :
  b64decode (b64encode bs) = Some bs.
Proof.
  unfold b64decode, b64encode.
  rewrite list_ascii_of_string_of_list_ascii.
  rewrite b64_ungroup_groups.
  - rewrite (traverse_ok _ (fun z => match Byte.of_N (Z.to_N z) with
                                      | Some b => b
                                      | None => Byte.x00
                                      end)).
    + f_equal. rewrite map_map. erewrite map_ext; [apply map_id|].
      intros b. unfold byte_value. simpl.
      now rewrite N2Z.id, Byte.of_to_N.
    + intros z Hz. apply in_map_iff in Hz as [b [<- _]].
      unfold byte_value. now rewrite N2Z.id, Byte.of_to_N.
  - apply Forall_forall. intros z Hz.
    apply in_map_iff in Hz as [b [<- _]]. apply byte_value_is_byte.
Qed.

(** ** The handler *)

Lemma filter_keys_nodup {K V} (p : K * V -> bool) (items : list (K * V)) :
  NoDup (keys items) -> NoDup (keys (filter p items)).
Proof.
  unfold keys. induction items as [|[k v] l IH]; intros H; [constructor|].
  simpl in *. inversion H as [|? ? Hk Hl]; subst.
  destruct (p (k, v)); simpl; auto.
  constructor; auto. intros Hin. apply Hk.
  apply in_map_iff in Hin as [[k' v'] [E Hin]].
  simpl in E. subst k'. apply filter_In in Hin as [Hin _].
  apply in_map_iff. now exists (k, v').
Qed.

Lemma map_fst_enumerate {A} (l : list A) :
  map fst (enumerate l) = map Z.of_nat (seq 0 (List.length l)).
Proof.
  unfold enumerate. generalize 0%nat.
  induction l as [|a l IH]; intros n; [reflexivity|].
  simpl. now rewrite IH.
Qed.

Lemma map_snd_enumerate {A} (l : list A) : map snd (enumerate l) = l.
Proof.
  unfold enumerate. generalize 0%nat.
  induction l as [|a l IH]; intros n; [reflexivity|].
  simpl. now rewrite IH.
Qed.

Section HandlerFacts.

Variable float : Type.
Variable format_0f : float -> string.
Variable savefig : Figure float -> result (list Byte.byte).
Variable ARIMAResults : Type.
Variable ARIMA_fit : Series -> nat * nat * nat -> result ARIMAResults.
Variable ARIMA_forecast : ARIMAResults -> nat -> result (list float).
Variable to_datetime : list Cell -> Cell -> option Timestamp.

Lemma forecast_items_years (last : Z) (fv : list float) :
  keys (forecast_items last fv)
  = map (fun i => last + Z.of_nat i + 1) (seq 0 (List.length fv)).
Proof.
  unfold keys, forecast_items. rewrite map_map. simpl.
  rewrite <- (map_map fst (fun i => last + i + 1)), map_fst_enumerate.
  now rewrite map_map.
Qed.

Lemma forecast_items_nodup (last : Z) (fv : list float) :
  NoDup (keys (forecast_items last fv)).
Proof.
  rewrite forecast_items_years. apply Injective_map_NoDup.
  - intros a b H. lia.
  - apply seq_NoDup.
Qed.

Lemma shown_items_nodup (last : Z) (fv : list float) :
  NoDup (keys (shown_items last fv)).
Proof.
  apply filter_keys_nodup, forecast_items_nodup.
Qed.

Lemma str_keys_nodup (items : list (Z * float)) :
  NoDup (keys items) -> NoDup (keys (str_keys items)).
Proof.
  intros H. unfold keys, str_keys. rewrite map_map. simpl.
  rewrite <- (map_map fst str). apply Injective_map_NoDup; auto.
  intros a b. apply str_inj.
Qed.

Lemma string_eqb_eq (a b : string) : String.eqb a b = true <-> a = b.
Proof. apply String.eqb_eq. Qed.

(** The dictionary comprehension over [enumerate(forecast_values)]. *)
Lemma forecast_dict_run (series : Series) (last : Z) (fv : list float) :
  last_year series = Ok last ->
  forecast_dict series fv = Ok (str_keys (forecast_items last fv)).
Proof.
  intros HL. unfold forecast_dict. rewrite HL.
  rewrite (traverse_ok _ (fun id => (str (last + fst id + 1), snd id)))
    by reflexivity.
  rewrite (@dict_of_items_nodup _ _ String.eqb string_eqb_eq).
  - unfold str_keys, forecast_items. now rewrite map_map.
  - replace (map _ (enumerate fv)) with (str_keys (forecast_items last fv)).
    + apply str_keys_nodup, forecast_items_nodup.
    + unfold str_keys, forecast_items. now rewrite map_map.
Qed.

(** The filtering comprehension. *)
Lemma forecast_window_run (items : list (Z * float)) :
  NoDup (keys items) ->
  forecast_window (str_keys items)
  = Ok (str_keys (filter (fun yd => in_forecast_window (fst yd)) items)).
Proof.
  intros Hnd. unfold forecast_window.
  assert (Ht : traverse (fun yd : string * float =>
                 match int (fst yd) with
                 | Ok y => Ok (in_forecast_window y, yd)
                 | Raise e => Raise e
                 end) (str_keys items)
               = Ok (map (fun yd => (in_forecast_window (fst yd),
                                     (str (fst yd), snd yd))) items)).
  { clear Hnd. induction items as [|[y v] items IH]; [reflexivity|].
    unfold str_keys in *. cbn [map traverse fst snd].
    rewrite int_str, IH. reflexivity. }
  rewrite Ht.
  assert (Hf : map snd (filter fst
                 (map (fun yd : Z * float => (in_forecast_window (fst yd),
                                     (str (fst yd), snd yd))) items))
               = str_keys (filter (fun yd => in_forecast_window (fst yd))
                             items)).
  { clear. induction items as [|[y v] items IH]; [reflexivity|].
    simpl. destruct (in_forecast_window y); simpl; now rewrite IH. }
  rewrite Hf.
  rewrite (@dict_of_items_nodup _ _ String.eqb string_eqb_eq); [reflexivity|].
  now apply str_keys_nodup, filter_keys_nodup.
Qed.

(** The historical chart: the figure of the series, handed to the
    rasteriser. *)
Lemma create_historical_plot_run (historical_data : Series) (pc : string) :
  create_historical_plot savefig historical_data pc
  = encoded (savefig (historical_figure
                        (historical_artists float historical_data) pc)).
Proof.
  unfold create_historical_plot, historical_artists, plot, encoded.
  destruct historical_data as [|p tl]; [reflexivity|].
  unfold series_years. rewrite !length_map, Nat.eqb_refl. reflexivity.
Qed.

(** The forecast chart is drawn for every dictionary the handler builds:
    distinct years, written in decimal, all in the forecast window. *)
Lemma create_forecast_plot_run (items : list (Z * float)) (pc : string) :
  NoDup (keys items) ->
  (forall yd, In yd items -> in_forecast_window (fst yd) = true) ->
  create_forecast_plot format_0f savefig (str_keys items) pc
  = encoded (savefig (forecast_figure (forecast_artists format_0f items) pc)).
Proof.
  intros Hnd Hwin. unfold create_forecast_plot, encoded.
  assert (Hk : traverse int (keys (str_keys items)) = Ok (keys items)).
  { unfold keys, str_keys. rewrite map_map. simpl.
    rewrite <- (map_map fst str).
    rewrite (traverse_ok int (fun s => match int s with Ok z => z | _ => 0 end)).
    - f_equal. rewrite map_map. erewrite map_ext; [apply map_id|].
      intros a. simpl. now rewrite int_str.
    - intros s Hs. apply in_map_iff in Hs as [z [<- _]]. now rewrite int_str. }
  rewrite Hk.
  assert (Hf : filter in_forecast_window (keys items) = keys items).
  { clear Hk Hnd. unfold keys.
    induction items as [|yd l IH]; [reflexivity|]. simpl.
    rewrite (Hwin yd (or_introl eq_refl)), IH; [reflexivity|].
    intros x Hx. apply Hwin. now right. }
  rewrite Hf.
  assert (Hg : forall sub, incl sub items ->
            traverse (fun y => match dict_get String.eqb (str_keys items) (str y)
                               with
                               | Ok v => Ok (y, v)
                               | Raise e => Raise e
                               end) (keys sub) = Ok sub).
  { induction sub as [|[y v] sub IH]; intros Hincl; [reflexivity|].
    unfold keys in *. cbn [map traverse fst].
    rewrite (@dict_get_in _ _ String.eqb string_eqb_eq (str_keys items)
               (str y) v).
    - rewrite IH; [reflexivity|]. intros x Hx. apply Hincl. now right.
    - now apply str_keys_nodup.
    - unfold str_keys. apply in_map_iff. exists (y, v). split; [reflexivity|].
      apply Hincl. now left. }
  rewrite (Hg items (incl_refl items)).
  rewrite (@dict_of_items_nodup _ _ Z.eqb Z.eqb_eq) by exact Hnd.
  unfold forecast_artists, plot.
  destruct items as [|yd l]; [reflexivity|].
  unfold keys, values. rewrite !length_map, Nat.eqb_refl. reflexivity.
Qed.

Lemma last_year_in (series : Series) (last : Z) :
  last_year series = Ok last ->
  exists p, In p series /\ year (fst p) = last.
Proof.
  unfold last_year. destruct (rev series) as [|p tl] eqn:E; [discriminate|].
  intros [= <-]. exists p. split; [|reflexivity].
  apply in_rev. rewrite E. now left.
Qed.

Lemma last_year_nonempty (p : Timestamp * option Z) (tl : Series) :
  exists last, last_year (p :: tl) = Ok last.
Proof.
  unfold last_year. destruct (rev (p :: tl)) as [|q l] eqn:E; eauto.
  apply (f_equal (@List.length _)) in E. rewrite length_rev in E.
  discriminate.
Qed.

(** The successful branch of the handler runs to a page. *)
Lemma respond_success (pc : string) (series : Series) (last : Z)
  (model_fit : ARIMAResults) (fv : list float) :
  last_year series = Ok last ->
  train_arima ARIMA_fit series = Some model_fit ->
  predict_demand ARIMA_forecast model_fit 5 = Some fv ->
  respond format_0f savefig ARIMA_fit ARIMA_forecast pc series (Some series)
  = success_result pc (shown_items last fv)
      (savefig (historical_figure (historical_artists float series) pc))
      (savefig (forecast_figure
                  (forecast_artists format_0f (shown_items last fv)) pc)).
Proof.
  intros HL Ht Hp. unfold respond.
  destruct series as [|p tl]; [discriminate|]. cbn [is_empty].
  rewrite Ht, Hp. rewrite (@forecast_dict_run _ last fv HL). cbn [and_then].
  rewrite forecast_window_run by apply forecast_items_nodup.
  cbn [and_then]. rewrite create_historical_plot_run.
  fold (shown_items last fv).
  rewrite create_forecast_plot_run; [|apply shown_items_nodup|].
  - unfold success_result, encoded, success_page.
    destruct (savefig (historical_figure (historical_artists float (p :: tl))
                         pc)) as [h|e]; [|reflexivity].
    cbn [and_then].
    now destruct (savefig (forecast_figure
                             (forecast_artists format_0f (shown_items last fv))
                             pc)).
  - intros yd Hyd. unfold shown_items in Hyd. now apply filter_In in Hyd.
Qed.

(** The handler on a form submission: the two series are built from the
    dataset, and every object of the store stays as it was. *)
Lemma index_post_run (f : DataFrame) (rest : Store)
  (form : list (string * string)) (pc : string) :
  form_get form "product_code" = Ok pc ->
  exists extra,
    index format_0f savefig ARIMA_fit ARIMA_forecast to_datetime (POST form)
      (f :: rest)
    = (respond format_0f savefig ARIMA_fit ARIMA_forecast pc
         (prepared_series to_datetime f pc) (yearly_series to_datetime f pc),
       (f :: rest) ++ extra).
Proof.
  intros Hform. unfold index. rewrite Hform.
  destruct (prepare_data_run to_datetime f rest pc) as [e1 H1].
  destruct (get_yearly_demand_run to_datetime f (rest ++ e1) pc) as [e2 H2].
  exists (e1 ++ e2).
  unfold bind at 1. unfold lift at 1.
  rewrite (bind_run _ H1). cbn [app] in *. rewrite (bind_run _ H2).
  unfold lift. cbn [app]. now rewrite <- app_assoc.
Qed.

Lemma index_get_run (st : Store) :
  index format_0f savefig ARIMA_fit ARIMA_forecast to_datetime GET st
  = (Ok (mkPage None None None None), st).
Proof. reflexivity. Qed.

End HandlerFacts.

(** ** The two builders on the dataset *)

Section Builders.

Variable to_datetime : list Cell -> Cell -> option Timestamp.

Lemma prepare_data_result (f : DataFrame) (rest : Store) (pc : string) :
  fst (prepare_data to_datetime pc (f :: rest))
  = Ok (prepared_series to_datetime f pc).
Proof.
  destruct (prepare_data_run to_datetime f rest pc) as [extra H].
  now rewrite H.
Qed.

Lemma get_yearly_demand_result (f : DataFrame) (rest : Store) (pc : string) :
  fst (get_yearly_demand to_datetime pc (f :: rest))
  = Ok (yearly_series to_datetime f pc).
Proof.
  destruct (get_yearly_demand_run to_datetime f rest pc) as [extra H].
  now rewrite H.
Qed.

(** Forward fill changes nothing: the prepared series is the yearly series,
    and is empty where there is none. *)
Lemma prepared_series_yearly (f : DataFrame) (pc : string) :
  prepared_series to_datetime f pc
  = match yearly_series to_datetime f pc with
    | Some s => s
    | None => []
    end.
Proof.
  unfold prepared_series, yearly_series.
  destruct (product_rows f pc) as [|r rs]; [reflexivity|].
  destruct (indexed f); [reflexivity|].
  destruct (resample_Y_sum (dated to_datetime (r :: rs))) as [s|e] eqn:E;
    [|reflexivity].
  now rewrite (ffill_resample _ E).
Qed.

Lemma code_eqb_eq (c : Cell) (pc : string) :
  code_eqb c pc = true <-> c = Str pc.
Proof.
  destruct c as [|s|q]; simpl; try (split; [discriminate|discriminate]).
  rewrite String.eqb_eq. split; congruence.
Qed.

Lemma product_rows_unknown (f : DataFrame) (pc : string) :
  (forall r, In r (rows f) -> Product_Code r <> Str pc) ->
  product_rows f pc = [].
Proof.
  unfold product_rows. intros H.
  induction (rows f) as [|r rs IH]; [reflexivity|]. simpl.
  destruct (code_eqb (Product_Code r) pc) eqn:E.
  - exfalso. apply (H r (or_introl eq_refl)). now apply code_eqb_eq.
  - apply IH. intros q Hq. apply H. now right.
Qed.

Lemma yearly_series_window (f : DataFrame) (pc : string) (s : Series) :
  yearly_series to_datetime f pc = Some s ->
  forall p, In p s -> 2015 <= year (fst p) <= 2024.
Proof.
  unfold yearly_series.
  destruct (product_rows f pc) as [|r rs]; [discriminate|].
  destruct (indexed f); [discriminate|].
  destruct (resample_Y_sum (dated to_datetime (r :: rs))); [|discriminate].
  intros [= <-] p Hp. now apply window_years in Hp.
Qed.

Lemma prepared_series_window (f : DataFrame) (pc : string) :
  forall p, In p (prepared_series to_datetime f pc) ->
            2015 <= year (fst p) <= 2024.
Proof.
  rewrite prepared_series_yearly.
  destruct (yearly_series to_datetime f pc) as [s|] eqn:E; [|intros p []].
  now apply (yearly_series_window f pc).
Qed.

Lemma window_map (g : Z -> option Z) (years : list Z) :
  window (map (fun y => (year_end y, g y)) years)
  = map (fun y => (year_end y, g y)) (filter in_history_window years).
Proof.
  unfold window, year_le, year_ge, in_history_window.
  induction years as [|y l IH]; [reflexivity|]. simpl.
  destruct (2015 <=? y); simpl; [|exact IH].
  destruct (y <=? 2024); simpl; [now rewrite IH|exact IH].
Qed.

(** The yearly series of a product with a dated record: a bin for every year
    of the window from its first to its last. *)
Lemma yearly_series_bins (f : DataFrame) (pc : string) :
  indexed f = false ->
  product_points to_datetime f pc <> [] ->
  bins_in_bounds (product_points to_datetime f pc) = true ->
  yearly_series to_datetime f pc
  = Some (map (fun y => (year_end y,
                         Some (year_total (product_points to_datetime f pc) y)))
            (filter in_history_window
               (year_range (first_year (product_points to_datetime f pc))
                           (final_year (product_points to_datetime f pc))))).
Proof.
  intros Hix Hpts Hb. unfold yearly_series, product_points in *.
  destruct (product_rows f pc) as [|r rs]; [now destruct Hpts|].
  rewrite Hix, (resample_bins _ Hpts Hb). now rewrite window_map.
Qed.

(** No series comes of bins that cannot be built. *)
Lemma yearly_series_out_of_bounds (f : DataFrame) (pc : string) :
  product_points to_datetime f pc <> [] ->
  bins_in_bounds (product_points to_datetime f pc) = false ->
  yearly_series to_datetime f pc = None.
Proof.
  intros Hpts Hb. unfold yearly_series, product_points in *.
  destruct (product_rows f pc) as [|r rs]; [reflexivity|].
  rewrite (resample_out_of_bounds _ Hpts Hb). now destruct (indexed f).
Qed.

Lemma yearly_series_points (f : DataFrame) (pc : string) (s : Series) :
  yearly_series to_datetime f pc = Some s ->
  s <> [] ->
  indexed f = false /\ product_points to_datetime f pc <> []
  /\ bins_in_bounds (product_points to_datetime f pc) = true.
Proof.
  intros H Hs.
  assert (Hix : indexed f = false).
  { unfold yearly_series in H.
    destruct (product_rows f pc) as [|r rs]; [discriminate|].
    now destruct (indexed f). }
  assert (Hpts : product_points to_datetime f pc <> []).
  { intros E. unfold yearly_series, product_points in *.
    destruct (product_rows f pc) as [|r rs]; [discriminate|].
    rewrite Hix in H. rewrite resample_all_NaT in H;
      [discriminate|discriminate|exact E]. }
  repeat split; auto.
  destruct (bins_in_bounds (product_points to_datetime f pc)) eqn:Hb;
    [reflexivity|].
  rewrite (yearly_series_out_of_bounds f pc Hpts Hb) in H. discriminate.
Qed.

End Builders.

(** * The properties of the specification *)

Unset Implicit Arguments.

Section Specification.

Variable float : Type.
Variable format_0f : float -> string.
Variable savefig : Figure float -> result (list Byte.byte).
Variable ARIMAResults : Type.
Variable ARIMA_fit : Series -> nat * nat * nat -> result ARIMAResults.
Variable ARIMA_forecast : ARIMAResults -> nat -> result (list float).
Variable to_datetime : list Cell -> Cell -> option Timestamp.

Local Abbreviation handler :=
  (index format_0f savefig ARIMA_fit ARIMA_forecast to_datetime).
Local Abbreviation responds :=
  (respond format_0f savefig ARIMA_fit ARIMA_forecast).

Lemma handler_result (f : DataFrame) (rest : Store)
  (form : list (string * string)) (pc : string) :
  form_get form "product_code" = Ok pc ->
  fst (handler (POST form) (f :: rest))
  = responds pc (prepared_series to_datetime f pc)
      (yearly_series to_datetime f pc).
Proof.
  intros Hform.
  destruct (index_post_run format_0f savefig ARIMA_fit ARIMA_forecast
              to_datetime f rest form Hform) as [extra H].
  now rewrite H.
Qed.

Lemma responds_no_data (pc : string) (series : Series)
  (historical_data : option Series) :
  is_empty series
  || match historical_data with None => true | Some h => is_empty h end
  = true ->
  responds pc series historical_data = Ok (error_page float no_data_message).
Proof.
  unfold respond. destruct series as [|p tl]; [reflexivity|].
  destruct historical_data as [[|q h]|]; try reflexivity. discriminate.
Qed.

(** C1.  A product code that matches no record of the dataset: [prepare_data]
    returns the empty series, [get_yearly_demand] returns [None], and the
    handler's page shows the "No data found" message and nothing else, no
    forecast and no chart. *)
Theorem unknown_product_no_data (f : DataFrame) (rest : Store)
  (form : list (string * string)) (pc : string) :
  (forall r, In r (rows f) -> Product_Code r <> Str pc) ->
  form_get form "product_code" = Ok pc ->
  returns (prepare_data to_datetime pc) (f :: rest) []
  /\ returns (get_yearly_demand to_datetime pc) (f :: rest) None
  /\ returns (handler (POST form)) (f :: rest)
       (mkPage None (Some no_data_message) None None).
Proof.
  intros Hno Hform. apply product_rows_unknown in Hno.
  assert (Hp : prepared_series to_datetime f pc = [])
    by (unfold prepared_series; now rewrite Hno).
  assert (Hy : yearly_series to_datetime f pc = None)
    by (unfold yearly_series; now rewrite Hno).
  unfold returns. repeat split.
  - now rewrite prepare_data_result, Hp.
  - now rewrite get_yearly_demand_result, Hy.
  - rewrite (handler_result f rest form pc Hform), Hp, Hy. reflexivity.
Qed.

(** C2.  Every year of the series [prepare_data] returns and of the series
    [get_yearly_demand] returns lies in 2015..2024; a record whose date, in
    whatever column it is parsed, falls in a year outside that window leaves
    no point for its year in either, however many such records there are. *)
Theorem series_years_in_window (f : DataFrame) (rest : Store) (pc : string)
  (s : Series) :
  returns (prepare_data to_datetime pc) (f :: rest) s
  \/ returns (get_yearly_demand to_datetime pc) (f :: rest) (Some s) ->
  (forall y, In y (series_years s) -> 2015 <= y <= 2024)
  /\ (forall r column t, In r (rows f) ->
        cell_to_datetime to_datetime column (Date r) = Some t ->
        ~ (2015 <= year t <= 2024) ->
        ~ In (year t) (series_years s)).
Proof.
  intros H.
  assert (Hw : forall y, In y (series_years s) -> 2015 <= y <= 2024).
  { intros y Hy. unfold series_years in Hy.
    apply in_map_iff in Hy as [p [<- Hp]]. unfold returns in H.
    destruct H as [H|H].
    - rewrite prepare_data_result in H. injection H as <-.
      now apply (prepared_series_window to_datetime f pc).
    - rewrite get_yearly_demand_result in H. injection H as H.
      now apply (yearly_series_window to_datetime f pc H). }
  split; [exact Hw|]. intros r column t _ _ Hout Hin. apply Hout, Hw, Hin.
Qed.

(** C4.  There is no product code on which [prepare_data] raises.  With no
    record of the product, and whenever the aggregation of the parsed dates
    fails, what it returns is the empty series; and on an empty series the
    handler answers with the "No data found" page. *)
Theorem prepare_data_never_raises (f : DataFrame) (rest : Store)
  (form : list (string * string)) (pc : string) :
  form_get form "product_code" = Ok pc ->
  (exists s, returns (prepare_data to_datetime pc) (f :: rest) s)
  /\ (product_rows f pc = [] ->
      returns (prepare_data to_datetime pc) (f :: rest) [])
  /\ (forall e,
        resample_Y_sum (dated to_datetime (product_rows f pc)) = Raise e ->
        returns (prepare_data to_datetime pc) (f :: rest) [])
  /\ (returns (prepare_data to_datetime pc) (f :: rest) [] ->
      returns (handler (POST form)) (f :: rest)
        (mkPage None (Some no_data_message) None None)).
Proof.
  intros Hform. unfold returns. rewrite prepare_data_result.
  repeat split.
  - eauto.
  - intros H. unfold prepared_series. now rewrite H.
  - intros e H. unfold prepared_series.
    destruct (product_rows f pc); [reflexivity|].
    rewrite H. now destruct (indexed f).
  - intros [= H]. rewrite (handler_result f rest form pc Hform), H.
    now apply responds_no_data.
Qed.

(** C10.  Whenever [get_yearly_demand] returns a series that is not empty,
    [prepare_data] returns the same series, point for point; in general
    [prepare_data] returns what [get_yearly_demand] returns, with the empty
    series in place of [None]. *)
Theorem prepare_data_matches_yearly_demand (f : DataFrame) (rest : Store)
  (pc : string) (h : Series) :
  returns (get_yearly_demand to_datetime pc) (f :: rest) (Some h) ->
  h <> [] ->
  returns (prepare_data to_datetime pc) (f :: rest) h
  /\ forall y, returns (get_yearly_demand to_datetime pc) (f :: rest) y ->
       returns (prepare_data to_datetime pc) (f :: rest)
         (match y with Some s => s | None => [] end).
Proof.
  unfold returns. rewrite get_yearly_demand_result, prepare_data_result.
  rewrite prepared_series_yearly. intros [= H] _. rewrite H.
  split; [reflexivity|]. now intros y [= <-].
Qed.

Lemma responds_training_failed (pc : string) (p : Timestamp * option Z)
  (tl : Series) :
  train_arima ARIMA_fit (p :: tl) = None ->
  responds pc (p :: tl) (Some (p :: tl))
  = Ok (error_page float training_failed_message).
Proof.
  intros H. unfold respond. cbn [is_empty]. now rewrite H.
Qed.

Lemma responds_forecast_failed (pc : string) (p : Timestamp * option Z)
  (tl : Series) (model_fit : ARIMAResults) :
  train_arima ARIMA_fit (p :: tl) = Some model_fit ->
  predict_demand ARIMA_forecast model_fit 5 = None ->
  responds pc (p :: tl) (Some (p :: tl))
  = Ok (error_page float forecast_failed_message).
Proof.
  intros H1 H2. unfold respond. cbn [is_empty]. now rewrite H1, H2.
Qed.

(** A fit that raises, for whatever reason, ends in the training-failed
    page. *)
Lemma failed_fit_is_training_failed (pc : string) (p : Timestamp * option Z)
  (tl : Series) (e : exn) :
  ARIMA_fit (p :: tl) (5, 1, 0)%nat = Raise e ->
  responds pc (p :: tl) (Some (p :: tl))
  = Ok (error_page float training_failed_message).
Proof.
  intros H. apply responds_training_failed. unfold train_arima.
  now rewrite H.
Qed.

(** A request that passes the three checks: what it ends in. *)
Lemma handler_passes (f : DataFrame) (rest : Store)
  (form : list (string * string)) (pc : string) (series : Series) (last : Z)
  (model_fit : ARIMAResults) (fv : list float) :
  form_get form "product_code" = Ok pc ->
  returns (prepare_data to_datetime pc) (f :: rest) series ->
  last_year series = Ok last ->
  train_arima ARIMA_fit series = Some model_fit ->
  predict_demand ARIMA_forecast model_fit 5 = Some fv ->
  fst (handler (POST form) (f :: rest))
  = success_result pc (shown_items last fv)
      (savefig (historical_figure (historical_artists float series) pc))
      (savefig (forecast_figure
                  (forecast_artists format_0f (shown_items last fv)) pc))
  /\ 2015 <= last <= 2024.
Proof.
  unfold returns. intros Hform Hs HL Hfit Hfc.
  rewrite prepare_data_result in Hs. injection Hs as Hs.
  assert (Hh : yearly_series to_datetime f pc = Some series).
  { rewrite prepared_series_yearly in Hs.
    destruct (yearly_series to_datetime f pc) as [h|]; [now subst|].
    subst series. discriminate. }
  split.
  - rewrite (handler_result f rest form pc Hform), Hs, Hh.
    apply (@respond_success _ format_0f savefig _ ARIMA_fit ARIMA_forecast
             pc _ last model_fit _ HL Hfit Hfc).
  - destruct (last_year_in _ HL) as [p [Hp <-]].
    apply (yearly_series_window to_datetime f pc Hh p Hp).
Qed.

Lemma success_page_shows (pc : string) (items : list (Z * float))
  (h g : list Byte.byte) :
  error_block (success_page pc items h g) = None
  /\ displayed_forecast (success_page pc items h g) = str_keys items.
Proof.
  unfold success_page, displayed_forecast, render_template_string.
  cbn [error_block forecast_block ctx_error ctx_forecast truthy_string].
  split; [reflexivity|]. now destruct (str_keys items).
Qed.

Lemma success_result_ok (pc : string) (items : list (Z * float))
  (h g : result (list Byte.byte)) (page : Page float) :
  success_result pc items h g = Ok page ->
  exists hp gp, h = Ok hp /\ g = Ok gp /\ page = success_page pc items hp gp.
Proof.
  unfold success_result.
  destruct h as [hp|e]; [|discriminate]. destruct g as [gp|e]; [|discriminate].
  intros [= <-]. now exists hp, gp.
Qed.

(** C5.  On a form submission the handler checks, in this order, for no data,
    for a failed fit and for a failed projection, and the first check that
    fails decides the page; each of the three failure pages shows its one
    message and nothing else, no forecast and neither chart.  With no check
    failing the request goes on to the forecast and the two charts: it ends
    in the page of a success when both charts are rasterised, and in the
    exception of the rasteriser when they are not; a page it returns carries
    no error message. *)
Theorem handler_check_order (f : DataFrame) (rest : Store)
  (form : list (string * string)) (pc : string) (series : Series)
  (historical_data : option Series) :
  form_get form "product_code" = Ok pc ->
  returns (prepare_data to_datetime pc) (f :: rest) series ->
  returns (get_yearly_demand to_datetime pc) (f :: rest) historical_data ->
  if is_empty series
     || match historical_data with
        | None => true
        | Some h => is_empty h
        end
  then returns (handler (POST form)) (f :: rest)
         (mkPage None (Some no_data_message) None None)
  else
    match train_arima ARIMA_fit series with
    | None =>
        returns (handler (POST form)) (f :: rest)
          (mkPage None (Some training_failed_message) None None)
    | Some model_fit =>
        match predict_demand ARIMA_forecast model_fit 5 with
        | None =>
            returns (handler (POST form)) (f :: rest)
              (mkPage None (Some forecast_failed_message) None None)
        | Some forecast_values =>
            exists last,
              last_year series = Ok last
              /\ fst (handler (POST form) (f :: rest))
                 = success_result pc (shown_items last forecast_values)
                     (savefig (historical_figure
                                 (historical_artists float series) pc))
                     (savefig (forecast_figure
                                 (forecast_artists format_0f
                                    (shown_items last forecast_values)) pc))
              /\ forall page,
                   returns (handler (POST form)) (f :: rest) page ->
                   error_block page = None
        end
    end.
Proof.
  intros Hform Hs Hh.
  pose proof Hs as Hs'. unfold returns in Hs', Hh |- *.
  rewrite prepare_data_result in Hs'. rewrite get_yearly_demand_result in Hh.
  injection Hs' as Hs'. injection Hh as Hh.
  destruct (is_empty series
            || match historical_data with
               | None => true
               | Some h => is_empty h
               end) eqn:Hcheck.
  - rewrite (handler_result f rest form pc Hform), Hs', Hh.
    now apply responds_no_data.
  - assert (Hsame : historical_data = Some series).
    { rewrite prepared_series_yearly, Hh in Hs'.
      destruct historical_data as [h|]; [now rewrite Hs'|].
      rewrite <- Hs' in Hcheck. discriminate. }
    destruct series as [|p tl]; [discriminate|].
    destruct (train_arima ARIMA_fit (p :: tl)) as [model_fit|] eqn:Hfit.
    + destruct (predict_demand ARIMA_forecast model_fit 5) as [fv|] eqn:Hfc.
      * destruct (last_year_nonempty p tl) as [last HL].
        exists last. split; [exact HL|].
        pose proof (handler_passes f rest form pc (p :: tl) last model_fit fv
                      Hform Hs HL Hfit Hfc) as [Hres _].
        split; [exact Hres|].
        intros page Hpage. rewrite Hres in Hpage.
        apply success_result_ok in Hpage as [hp [gp [_ [_ ->]]]].
        apply success_page_shows.
      * rewrite (handler_result f rest form pc Hform), Hs', Hh, Hsame.
        eapply responds_forecast_failed; eassumption.
    + rewrite (handler_result f rest form pc Hform), Hs', Hh, Hsame.
      now apply responds_training_failed.
Qed.

(** C7, as the code has it.  The handler counts no points.  Whenever the fit
    of the fixed-order model raises on the prepared series, which is not
    empty, the request is answered with the "Failed to train ARIMA model."
    page, without a forecast and without a chart, and raises nothing. *)
Theorem failed_fit_reaches_training_failed (f : DataFrame) (rest : Store)
  (form : list (string * string)) (pc : string) (series : Series) (e : exn) :
  form_get form "product_code" = Ok pc ->
  returns (prepare_data to_datetime pc) (f :: rest) series ->
  series <> [] ->
  ARIMA_fit series (5, 1, 0)%nat = Raise e ->
  returns (handler (POST form)) (f :: rest)
    (mkPage None (Some training_failed_message) None None).
Proof.
  unfold returns. intros Hform Hs Hne Hfit.
  rewrite prepare_data_result in Hs. injection Hs as Hs.
  assert (Hh : yearly_series to_datetime f pc = Some series).
  { rewrite prepared_series_yearly in Hs.
    destruct (yearly_series to_datetime f pc) as [h|]; [now subst|].
    now subst series. }
  rewrite (handler_result f rest form pc Hform), Hs, Hh.
  destruct series as [|p tl]; [now destruct Hne|].
  now apply (failed_fit_is_training_failed pc p tl e).
Qed.

Lemma shown_items_window (last : Z) (fv : list float) (yd : Z * float) :
  In yd (shown_items last fv) ->
  2025 <= fst yd <= 2029 /\ last < fst yd.
Proof.
  unfold shown_items. rewrite filter_In. intros [Hin Hw].
  unfold in_forecast_window in Hw. apply andb_true_iff in Hw as [H1 H2].
  apply Z.leb_le in H1, H2. split; [lia|].
  unfold forecast_items in Hin. apply in_map_iff in Hin as [[i v] [<- Hin]].
  simpl. assert (Hi : In i (map fst (enumerate fv)))
    by (apply in_map_iff; now exists (i, v)).
  rewrite map_fst_enumerate in Hi. apply in_map_iff in Hi as [n [<- _]]. lia.
Qed.

Lemma five_forecast_items (last : Z) (v0 v1 v2 v3 v4 : float) :
  forecast_items last [v0; v1; v2; v3; v4]
  = [(last + 1, v0); (last + 2, v1); (last + 3, v2); (last + 4, v3);
     (last + 5, v4)].
Proof.
  unfold forecast_items.
  cbn [enumerate List.length seq map combine fst snd Z.of_nat].
  replace (last + 0 + 1) with (last + 1) by lia.
  replace (last + Z.pos (Pos.of_succ_nat 0) + 1) with (last + 2) by lia.
  replace (last + Z.pos (Pos.of_succ_nat 1) + 1) with (last + 3) by lia.
  replace (last + Z.pos (Pos.of_succ_nat 2) + 1) with (last + 4) by lia.
  replace (last + Z.pos (Pos.of_succ_nat 3) + 1) with (last + 5) by lia.
  reflexivity.
Qed.

(** C3.  On a request that passed the three checks, whose prepared series
    ends in the year [last], with the five predicted values [v0 .. v4]: the
    mapping the handler builds has the keys [last+1 .. last+5], in order,
    each with its predicted value; filtered, it keeps those in 2025..2029;
    the request ends in the page of a success built from that filtered
    mapping when both charts are rasterised, and in the exception of the
    rasteriser when they are not; a page it returns lists exactly the
    filtered mapping; and with [last] before 2020 that has fewer than five
    entries. *)
Theorem forecast_years_follow_last_year (f : DataFrame) (rest : Store)
  (form : list (string * string)) (pc : string) (series : Series) (last : Z)
  (model_fit : ARIMAResults) (v0 v1 v2 v3 v4 : float) :
  form_get form "product_code" = Ok pc ->
  returns (prepare_data to_datetime pc) (f :: rest) series ->
  last_year series = Ok last ->
  train_arima ARIMA_fit series = Some model_fit ->
  predict_demand ARIMA_forecast model_fit 5 = Some [v0; v1; v2; v3; v4] ->
  forecast_dict series [v0; v1; v2; v3; v4]
  = Ok [(str (last + 1), v0); (str (last + 2), v1); (str (last + 3), v2);
        (str (last + 4), v3); (str (last + 5), v4)]
  /\ forecast_window
       [(str (last + 1), v0); (str (last + 2), v1); (str (last + 3), v2);
        (str (last + 4), v3); (str (last + 5), v4)]
     = Ok (map (fun yd => (str (fst yd), snd yd))
             (filter (fun yd => (2025 <=? fst yd) && (fst yd <=? 2029))
                [(last + 1, v0); (last + 2, v1); (last + 3, v2);
                 (last + 4, v3); (last + 5, v4)]))
  /\ shown_items last [v0; v1; v2; v3; v4]
     = filter (fun yd => (2025 <=? fst yd) && (fst yd <=? 2029))
         [(last + 1, v0); (last + 2, v1); (last + 3, v2); (last + 4, v3);
          (last + 5, v4)]
  /\ fst (handler (POST form) (f :: rest))
     = success_result pc (shown_items last [v0; v1; v2; v3; v4])
         (savefig (historical_figure (historical_artists float series) pc))
         (savefig (forecast_figure
                     (forecast_artists format_0f
                        (shown_items last [v0; v1; v2; v3; v4])) pc))
  /\ (forall page,
        returns (handler (POST form)) (f :: rest) page ->
        displayed_forecast page
        = map (fun yd => (str (fst yd), snd yd))
            (shown_items last [v0; v1; v2; v3; v4])
        /\ (last < 2020 -> (List.length (displayed_forecast page) < 5)%nat))
  /\ (last < 2020 ->
      (List.length (shown_items last [v0; v1; v2; v3; v4]) < 5)%nat).
Proof.
  intros Hform Hs HL Hfit Hfc.
  pose proof (five_forecast_items last v0 v1 v2 v3 v4) as Hyears.
  assert (Hshown : shown_items last [v0; v1; v2; v3; v4]
                   = filter (fun yd => (2025 <=? fst yd) && (fst yd <=? 2029))
                       [(last + 1, v0); (last + 2, v1); (last + 3, v2);
                        (last + 4, v3); (last + 5, v4)]).
  { unfold shown_items. rewrite Hyears. reflexivity. }
  split.
  { rewrite (@forecast_dict_run float series last _ HL), Hyears.
    reflexivity. }
  split.
  { rewrite <- Hshown.
    change [(str (last + 1), v0); (str (last + 2), v1); (str (last + 3), v2);
            (str (last + 4), v3); (str (last + 5), v4)]
      with (str_keys [(last + 1, v0); (last + 2, v1); (last + 3, v2);
                      (last + 4, v3); (last + 5, v4)]).
    rewrite <- Hyears.
    rewrite forecast_window_run by apply forecast_items_nodup.
    reflexivity. }
  split; [exact Hshown|].
  pose proof (handler_passes f rest form pc series last model_fit _
                Hform Hs HL Hfit Hfc) as [Hres _].
  split; [exact Hres|].
  assert (Hfew : last < 2020 ->
            (List.length (shown_items last [v0; v1; v2; v3; v4]) < 5)%nat);
    [|split; [|exact Hfew]].
  2:{ intros page Hpage. unfold returns in Hpage. rewrite Hres in Hpage.
      apply success_result_ok in Hpage as [hp [gp [_ [_ ->]]]].
      destruct (success_page_shows pc (shown_items last [v0; v1; v2; v3; v4])
                  hp gp) as [_ ->].
      split; [reflexivity|]. intros Hlast. unfold str_keys.
      rewrite length_map. now apply Hfew. }
  intros Hlast.
  destruct (shown_items last [v0; v1; v2; v3; v4]) as [|yd l] eqn:E;
    [simpl; lia|].
  exfalso.
  assert (Hin : In yd (shown_items last [v0; v1; v2; v3; v4]))
    by (rewrite E; now left).
  pose proof (shown_items_window _ _ _ Hin) as [Hw _].
  unfold shown_items in Hin. apply filter_In in Hin as [Hin _].
  assert (Hk : In (fst yd) (keys (forecast_items last [v0; v1; v2; v3; v4])))
    by (unfold keys; apply in_map_iff; now exists yd).
  rewrite forecast_items_years in Hk. simpl in Hk. lia.
Qed.

(** C6, as the code has it.  The yearly series holds a point for no year
    outside 2015..2024 and for no year before the product's first dated
    record or after its last, and the point of a year holds the sum of that
    year's records.  When pandas can build the yearly bins (no record of the
    product dated in 1677 or 2262 or on the last day of 2261) the series
    holds a point for every year of 2015..2024 from the first dated record to
    the last: a year in between without any record is there, with total 0.
    When it cannot, the series is empty.  Forward fill changes no value of
    what the aggregation returns. *)
Theorem yearly_series_fills_gaps (f : DataFrame) (rest : Store) (pc : string)
  (s : Series) :
  returns (prepare_data to_datetime pc) (f :: rest) s
  \/ returns (get_yearly_demand to_datetime pc) (f :: rest) (Some s) ->
  (forall p, In p s ->
     2015 <= year (fst p) <= 2024
     /\ p = (year_end (year (fst p)),
             Some (year_total (product_points to_datetime f pc)
                     (year (fst p))))
     /\ exists p1 p2,
          In p1 (product_points to_datetime f pc)
          /\ In p2 (product_points to_datetime f pc)
          /\ year (fst p1) <= year (fst p) <= year (fst p2))
  /\ (indexed f = false ->
      bins_in_bounds (product_points to_datetime f pc) = true ->
      forall p1 p2 y,
        In p1 (product_points to_datetime f pc) ->
        In p2 (product_points to_datetime f pc) ->
        year (fst p1) <= y <= year (fst p2) ->
        2015 <= y <= 2024 ->
        In (year_end y,
            Some (year_total (product_points to_datetime f pc) y)) s)
  /\ (bins_in_bounds (product_points to_datetime f pc) = false -> s = [])
  /\ (forall y,
        (forall p, In p (product_points to_datetime f pc) ->
                   year (fst p) <> y) ->
        year_total (product_points to_datetime f pc) y = 0)
  /\ (forall resampled,
        resample_Y_sum (dated to_datetime (product_rows f pc)) = Ok resampled ->
        ffill resampled = resampled).
Proof.
  intros H.
  assert (Hs : s = [] \/ yearly_series to_datetime f pc = Some s).
  { unfold returns in H. destruct H as [H|H].
    - rewrite prepare_data_result, prepared_series_yearly in H.
      injection H as H.
      destruct (yearly_series to_datetime f pc); [right; now subst|now left].
    - rewrite get_yearly_demand_result in H. injection H as H. now right. }
  set (pts := product_points to_datetime f pc) in *.
  assert (Hbins : s <> [] ->
            indexed f = false /\ pts <> [] /\ bins_in_bounds pts = true
            /\ s = map (fun y => (year_end y, Some (year_total pts y)))
                     (filter in_history_window
                        (year_range (first_year pts) (final_year pts)))).
  { intros Hne. destruct Hs as [Hs|Hs]; [now destruct Hne|].
    destruct (yearly_series_points to_datetime f pc Hs Hne)
      as [Hix [Hpts Hb]].
    repeat split; auto.
    rewrite (yearly_series_bins to_datetime f pc Hix Hpts Hb) in Hs.
    now injection Hs as <-. }
  assert (Hin : forall p1 p2 y, indexed f = false ->
            bins_in_bounds pts = true ->
            In p1 pts -> In p2 pts -> year (fst p1) <= y <= year (fst p2) ->
            2015 <= y <= 2024 ->
            In (year_end y, Some (year_total pts y)) s).
  { intros p1 p2 y Hix Hb H1 H2 Hy Hw.
    assert (Hne : pts <> []) by (intros E; rewrite E in H1; destruct H1).
    pose proof (yearly_series_bins to_datetime f pc Hix Hne Hb) as Hy'.
    fold pts in Hy'.
    assert (Hsb : s = map (fun y => (year_end y, Some (year_total pts y)))
                    (filter in_history_window
                       (year_range (first_year pts) (final_year pts)))).
    { unfold returns in H. destruct H as [H|H].
      - rewrite prepare_data_result, prepared_series_yearly, Hy' in H.
        now injection H as <-.
      - rewrite get_yearly_demand_result, Hy' in H. now injection H as <-. }
    rewrite Hsb. apply in_map_iff. exists y. split; [reflexivity|].
    apply filter_In. split.
    - apply in_year_range.
      destruct (first_year_spec Hne) as [_ Hf].
      destruct (final_year_spec Hne) as [_ Hl].
      specialize (Hf p1 H1). specialize (Hl p2 H2). lia.
    - unfold in_history_window. apply andb_true_iff.
      split; apply Z.leb_le; lia. }
  split.
  { intros p Hp.
    assert (Hne : s <> []) by (intros E; rewrite E in Hp; destruct Hp).
    destruct (Hbins Hne) as [Hix [Hpts [Hb Hsb]]].
    rewrite Hsb in Hp. apply in_map_iff in Hp as [y [<- Hy]].
    apply filter_In in Hy as [Hy Hw]. apply in_year_range in Hy.
    unfold in_history_window in Hw. apply andb_true_iff in Hw as [Hw1 Hw2].
    apply Z.leb_le in Hw1, Hw2.
    destruct (first_year_spec Hpts) as [[p1 [H1 E1]] _].
    destruct (final_year_spec Hpts) as [[p2 [H2 E2]] _].
    simpl. split; [lia|]. split; [reflexivity|].
    exists p1, p2. repeat split; auto; lia. }
  split.
  { intros Hix Hb p1 p2 y. now apply Hin. }
  split.
  { intros Hb. destruct s as [|p tl]; [reflexivity|].
    assert (Hne : p :: tl <> []) by discriminate.
    destruct (Hbins Hne) as [_ [_ [Hb' _]]]. congruence. }
  split.
  { intros y Hy. now apply year_total_no_record. }
  intros resampled Hr. now apply (ffill_resample _ Hr).
Qed.


Lemma astype_int_range (q : Q) : int64_min <= astype_int q <= int64_max.
Proof.
  unfold astype_int.
  destruct ((int64_min <=? Z.quot (Qnum q) (Z.pos (Qden q)))
            && (Z.quot (Qnum q) (Z.pos (Qden q)) <=? int64_max)) eqn:E.
  - apply andb_true_iff in E as [H1 H2]. apply Z.leb_le in H1, H2. lia.
  - unfold int64_min, int64_max. lia.
Qed.

(** What the load keeps: the rows of the file whose quantity is a number, in
    order, each with the number cast to an integer. *)
Lemma load_rows (to_numeric : list Cell -> Cell -> Numeric)
  (csv : list CsvRow) (f : DataFrame) :
  load to_numeric (Ok csv) = Some f ->
  indexed f = false
  /\ Forall2 (fun raw r =>
                exists q,
                  to_numeric (map csv_Order_Demand csv) (csv_Order_Demand raw)
                  = Finite q
                  /\ r = mkRow (csv_Product_Code raw)
                           (RawDate (csv_Date raw)) (astype_int q))
       (filter (fun raw =>
                  negb (is_nan (to_numeric (map csv_Order_Demand csv)
                                  (csv_Order_Demand raw))))
          csv)
       (rows f).
Proof.
  unfold load.
  match goal with
  | |- match traverse ?g ?l with _ => _ end = _ -> _ =>
      destruct (traverse g l) as [rs|e] eqn:E; [|discriminate]
  end.
  intros [= <-]. split; [reflexivity|]. simpl rows.
  revert rs E. generalize (map csv_Order_Demand csv) as column. intros column.
  induction csv as [|raw csv IH]; intros rs E.
  - simpl in E. injection E as <-. constructor.
  - cbn [map filter snd fst] in E. cbn [filter].
    destruct (to_numeric column (csv_Order_Demand raw)) as [| |q] eqn:En;
      cbn [is_nan negb traverse snd fst] in *.
    + now apply IH.
    + discriminate.
    + match type of E with
      | match traverse ?g ?l with _ => _ end = _ =>
          destruct (traverse g l) as [rs'|e] eqn:E'; [|discriminate]
      end.
      injection E as <-. constructor; [now exists q|now apply IH].
Qed.

Lemma Forall2_in_right {A B} (R : A -> B -> Prop) (l : list A) (l' : list B)
  (b : B) :
  Forall2 R l l' -> In b l' -> exists a, In a l /\ R a b.
Proof.
  induction 1 as [|a b' l l' HR HF IH]; intros Hin; [destruct Hin|].
  destruct Hin as [<-|Hin].
  - exists a. split; [now left|exact HR].
  - destruct (IH Hin) as [a' [Ha HR']]. exists a'. split; [now right|exact HR'].
Qed.

(** The handler leaves every object of the store as it was: it allocates
    copies and changes only them. *)
Lemma handler_preserves_store (request : Request) (f : DataFrame)
  (rest : Store) :
  exists extra, snd (handler request (f :: rest)) = (f :: rest) ++ extra.
Proof.
  destruct request as [|form].
  - exists []. rewrite index_get_run. simpl. now rewrite app_nil_r.
  - destruct (form_get form "product_code") as [pc|e] eqn:Hform.
    + destruct (index_post_run format_0f savefig ARIMA_fit ARIMA_forecast
                  to_datetime f rest form Hform) as [extra H].
      exists extra. now rewrite H.
    + exists []. unfold index. rewrite Hform. simpl. now rewrite app_nil_r.
Qed.

(** C9, as the code has it.  After the load every quantity of the dataset is
    a 64-bit integer, of either sign: the code checks no sign.  The rows kept
    are the rows of the file whose quantity is read as a number, in the order
    of the file, each with that number cast to an integer; the rows whose
    quantity is no number are dropped; and no request changes the dataset. *)
Theorem loaded_quantities_are_integers
  (to_numeric : list Cell -> Cell -> Numeric) (csv : list CsvRow)
  (f : DataFrame) :
  load to_numeric (Ok csv) = Some f ->
  Forall2 (fun raw r =>
             exists q,
               to_numeric (map csv_Order_Demand csv) (csv_Order_Demand raw)
               = Finite q
               /\ r = mkRow (csv_Product_Code raw)
                        (RawDate (csv_Date raw)) (astype_int q))
    (filter (fun raw =>
               negb (is_nan (to_numeric (map csv_Order_Demand csv)
                               (csv_Order_Demand raw))))
       csv)
    (rows f)
  /\ (forall r, In r (rows f) -> int64_min <= Order_Demand r <= int64_max)
  /\ (forall request rest,
        exists extra,
          snd (handler request (f :: rest)) = (f :: rest) ++ extra).
Proof.
  intros H. destruct (load_rows _ _ _ H) as [_ Hrows].
  split; [exact Hrows|]. split.
  - intros r Hr.
    destruct (@Forall2_in_right _ _ _ _ _ r Hrows Hr) as [raw [_ [q [_ ->]]]].
    apply astype_int_range.
  - intros request rest. apply handler_preserves_store.
Qed.

End Specification.

(** * The properties on a concrete dataset *)

Lemma unknown_product_no_data_witness :
  returns (prepare_data to_datetime_ymd "Z9") [demo_frame] []
  /\ returns (get_yearly_demand to_datetime_ymd "Z9") [demo_frame] None
  /\ returns (demo_index (POST [("product_code", "Z9")])) [demo_frame]
       (mkPage None (Some no_data_message) None None).
Proof.
  apply (unknown_product_no_data Q no_format (@no_png (Figure Q)) (option Z)
           naive_fit naive_forecast to_datetime_ymd demo_frame []
           [("product_code", "Z9")] "Z9").
  - intros r Hr. simpl in Hr.
    repeat (destruct Hr as [<-|Hr]; [discriminate|]). destruct Hr.
  - reflexivity.
Defined.

Lemma series_years_in_window_witness :
  (forall y, In y (series_years demo_series) -> 2015 <= y <= 2024)
  /\ (forall r column t, In r (rows demo_frame) ->
        cell_to_datetime to_datetime_ymd column (Date r) = Some t ->
        ~ (2015 <= year t <= 2024) ->
        ~ In (year t) (series_years demo_series)).
Proof.
  apply (series_years_in_window to_datetime_ymd demo_frame [] "A1"
           demo_series).
  left. vm_compute. reflexivity.
Defined.

(** A1 ends in 2021: of the years 2022..2026 the page lists 2025 and 2026.
    E5 ends in 2016: none of the years 2017..2021 is listed. *)
Lemma forecast_years_follow_last_year_witness :
  fst (demo_index (POST [("product_code", "A1")]) [demo_frame])
  = Ok (success_page "A1" [(2025, inject_Z 120); (2026, inject_Z 120)] [] [])
  /\ shown_items 2016
       [inject_Z 120; inject_Z 120; inject_Z 120; inject_Z 120; inject_Z 120]
     = []
  /\ (List.length
        (shown_items 2016
           [inject_Z 120; inject_Z 120; inject_Z 120; inject_Z 120;
            inject_Z 120]) < 5)%nat.
Proof.
  split; [|split].
  - assert (Hs : returns (prepare_data to_datetime_ymd "A1") [demo_frame]
                   demo_series) by (vm_compute; reflexivity).
    destruct (forecast_years_follow_last_year Q no_format
                (@no_png (Figure Q)) (option Z) naive_fit naive_forecast
                to_datetime_ymd demo_frame [] [("product_code", "A1")] "A1"
                demo_series 2021 (Some 120) (inject_Z 120) (inject_Z 120)
                (inject_Z 120) (inject_Z 120) (inject_Z 120)
                eq_refl Hs eq_refl eq_refl eq_refl)
      as [_ [_ [_ [H _]]]].
    exact H.
  - reflexivity.
  - assert (Hs : returns (prepare_data to_datetime_ymd "E5") [demo_short]
                   demo_E5_series) by (vm_compute; reflexivity).
    destruct (forecast_years_follow_last_year Q no_format
                (@one_byte_png (Figure Q)) (option Z) lenient_fit
                naive_forecast to_datetime_ymd demo_short []
                [("product_code", "E5")] "E5" demo_E5_series 2016 (Some 120)
                (inject_Z 120) (inject_Z 120) (inject_Z 120) (inject_Z 120)
                (inject_Z 120) eq_refl Hs eq_refl eq_refl eq_refl)
      as [_ [_ [_ [_ [_ H]]]]].
    apply H. lia.
Defined.

Lemma prepare_data_never_raises_witness :
  (exists s, returns (prepare_data to_datetime_ymd "C3") [demo_frame] s)
  /\ (product_rows demo_frame "C3" = [] ->
      returns (prepare_data to_datetime_ymd "C3") [demo_frame] [])
  /\ (forall e,
        resample_Y_sum (dated to_datetime_ymd (product_rows demo_frame "C3"))
        = Raise e ->
        returns (prepare_data to_datetime_ymd "C3") [demo_frame] [])
  /\ (returns (prepare_data to_datetime_ymd "C3") [demo_frame] [] ->
      returns (demo_index (POST [("product_code", "C3")])) [demo_frame]
        (mkPage None (Some no_data_message) None None)).
Proof.
  apply (prepare_data_never_raises Q no_format (@no_png (Figure Q)) (option Z)
           naive_fit naive_forecast to_datetime_ymd demo_frame []
           [("product_code", "C3")] "C3").
  reflexivity.
Defined.

(** B2 has one point: the fit fails, and the page is that of the failed fit.
    A1 passes the three checks. *)
Lemma handler_check_order_witness :
  returns (demo_index (POST [("product_code", "B2")])) [demo_frame]
    (mkPage None (Some training_failed_message) None None)
  /\ exists last,
       last_year demo_series = Ok last
       /\ fst (demo_index (POST [("product_code", "A1")]) [demo_frame])
          = Ok (success_page "A1"
                  (shown_items last
                     [inject_Z 120; inject_Z 120; inject_Z 120; inject_Z 120;
                      inject_Z 120]) [] []).
Proof.
  split.
  - assert (Hs : returns (prepare_data to_datetime_ymd "B2") [demo_frame]
                   [(year_end 2016, Some 7)]) by (vm_compute; reflexivity).
    assert (Hh : returns (get_yearly_demand to_datetime_ymd "B2") [demo_frame]
                   (Some [(year_end 2016, Some 7)]))
      by (vm_compute; reflexivity).
    exact (handler_check_order Q no_format (@no_png (Figure Q)) (option Z)
             naive_fit naive_forecast to_datetime_ymd demo_frame []
             [("product_code", "B2")] "B2" [(year_end 2016, Some 7)]
             (Some [(year_end 2016, Some 7)]) eq_refl Hs Hh).
  - assert (Hs : returns (prepare_data to_datetime_ymd "A1") [demo_frame]
                   demo_series) by (vm_compute; reflexivity).
    assert (Hh : returns (get_yearly_demand to_datetime_ymd "A1") [demo_frame]
                   (Some demo_series)) by (vm_compute; reflexivity).
    destruct (handler_check_order Q no_format (@no_png (Figure Q)) (option Z)
                naive_fit naive_forecast to_datetime_ymd demo_frame []
                [("product_code", "A1")] "A1" demo_series (Some demo_series)
                eq_refl Hs Hh) as [last [HL [H _]]].
    exists last. split; [exact HL|exact H].
Defined.

Lemma prepare_data_matches_yearly_demand_witness :
  returns (prepare_data to_datetime_ymd "A1") [demo_frame] demo_series
  /\ forall y, returns (get_yearly_demand to_datetime_ymd "A1") [demo_frame] y ->
       returns (prepare_data to_datetime_ymd "A1") [demo_frame]
         (match y with Some s => s | None => [] end).
Proof.
  apply (prepare_data_matches_yearly_demand to_datetime_ymd demo_frame []
           "A1" demo_series).
  - vm_compute. reflexivity.
  - discriminate.
Defined.

(** C6 as stated fails: A1 has no record in 2016, and 2016 is a point of
    its series. *)
Lemma gap_year_is_invented :
  ~ (forall (to_datetime : list Cell -> Cell -> option Timestamp)
            (f : DataFrame) (rest : Store) (pc : string) (s : Series),
       returns (prepare_data to_datetime pc) (f :: rest) s ->
       forall y, In y (series_years s) ->
         exists p, In p (product_points to_datetime f pc)
                   /\ year (fst p) = y).
Proof.
  intros H.
  assert (Hs : returns (prepare_data to_datetime_ymd "A1") [demo_frame]
                 demo_series) by (vm_compute; reflexivity).
  destruct (H to_datetime_ymd demo_frame [] "A1" demo_series Hs 2016)
    as [p [Hp Hy]].
  - simpl. tauto.
  - vm_compute in Hp.
    repeat (destruct Hp as [<-|Hp]; [discriminate|]). destruct Hp.
Qed.

Lemma yearly_series_fills_gaps_witness :
  In (year_end 2016,
      Some (year_total (product_points to_datetime_ymd demo_frame "A1") 2016))
     demo_series
  /\ year_total (product_points to_datetime_ymd demo_frame "A1") 2016 = 0.
Proof.
  destruct (yearly_series_fills_gaps to_datetime_ymd demo_frame [] "A1"
              demo_series) as [_ [Hin [_ [Hzero _]]]].
  - left. vm_compute. reflexivity.
  - split.
    + apply (Hin eq_refl eq_refl
               (mkTimestamp 2015 3 1, 60) (mkTimestamp 2021 12 31, 120) 2016).
      * vm_compute. tauto.
      * vm_compute. tauto.
      * simpl. lia.
      * lia.
    + apply Hzero. intros p Hp. vm_compute in Hp.
      repeat (destruct Hp as [<-|Hp]; [discriminate|]). destruct Hp.
Defined.

(** C7 as stated fails: the handler counts no points, and a library that
    fits the three points of D4 takes the request to the page of a success,
    not to that of a failed fit. *)
Lemma short_series_is_not_refused :
  ~ (forall (float : Type) (format_0f : float -> string)
            (savefig : Figure float -> result (list Byte.byte))
            (ARIMAResults : Type)
            (ARIMA_fit : Series -> nat * nat * nat -> result ARIMAResults)
            (ARIMA_forecast : ARIMAResults -> nat -> result (list float))
            (to_datetime : list Cell -> Cell -> option Timestamp)
            (f : DataFrame) (rest : Store) (form : list (string * string))
            (pc : string) (series : Series),
       form_get form "product_code" = Ok pc ->
       returns (prepare_data to_datetime pc) (f :: rest) series ->
       series <> [] ->
       (List.length series <= 5)%nat ->
       returns (index format_0f savefig ARIMA_fit ARIMA_forecast to_datetime
                  (POST form)) (f :: rest)
         (mkPage None (Some training_failed_message) None None)).
Proof.
  intros H.
  assert (Hs : returns (prepare_data to_datetime_ymd "D4") [demo_short]
                 demo_short_series) by (vm_compute; reflexivity).
  specialize (H Q no_format (@one_byte_png (Figure Q)) (option Z) lenient_fit
                naive_forecast to_datetime_ymd demo_short []
                [("product_code", "D4")] "D4" demo_short_series eq_refl Hs).
  assert (Hne : demo_short_series <> []) by discriminate.
  specialize (H Hne). unfold returns in H.
  assert (Hlen : (List.length demo_short_series <= 5)%nat)
    by (simpl; lia).
  specialize (H Hlen). vm_compute in H. discriminate.
Qed.

(** With a library that refuses fewer than seven points, B2 and its one
    point get the page of the failed fit. *)
Lemma failed_fit_reaches_training_failed_witness :
  returns (demo_index (POST [("product_code", "B2")])) [demo_frame]
    (mkPage None (Some training_failed_message) None None).
Proof.
  assert (Hs : returns (prepare_data to_datetime_ymd "B2") [demo_frame]
                 [(year_end 2016, Some 7)]) by (vm_compute; reflexivity).
  assert (Hne : [(year_end 2016, Some 7)] <> ([] : Series)) by discriminate.
  exact (failed_fit_reaches_training_failed Q no_format (@no_png (Figure Q))
           (option Z) naive_fit naive_forecast to_datetime_ymd demo_frame []
           [("product_code", "B2")] "B2" [(year_end 2016, Some 7)]
           LibraryError eq_refl Hs Hne eq_refl).
Defined.


(** C9 as stated fails: a file may hold a negative quantity, and the load
    keeps it. *)
Lemma negative_quantity_is_kept :
  ~ (forall (to_numeric : list Cell -> Cell -> Numeric)
            (read_csv : result (list CsvRow)) (f : DataFrame),
       load to_numeric read_csv = Some f ->
       forall r, In r (rows f) -> 0 <= Order_Demand r).
Proof.
  intros H.
  specialize (H to_numeric_decimal
                (Ok [mkCsvRow (Str "A1") (Str "2015/3/1") (Str "-5")])
                _ eq_refl
                (mkRow (Str "A1") (RawDate (Str "2015/3/1")) (-5))
                (or_introl eq_refl)).
  simpl in H. lia.
Qed.

Lemma loaded_quantities_are_integers_witness :
  rows (mkFrame false
          [mkRow (Str "A1") (RawDate (Str "2015/3/1")) (-5);
           mkRow (Str "A1") (RawDate (Str "2015/3/3")) 100])
  = [mkRow (Str "A1") (RawDate (Str "2015/3/1")) (-5);
     mkRow (Str "A1") (RawDate (Str "2015/3/3")) 100]
  /\ (forall r,
        In r [mkRow (Str "A1") (RawDate (Str "2015/3/1")) (-5);
              mkRow (Str "A1") (RawDate (Str "2015/3/3")) 100] ->
        int64_min <= Order_Demand r <= int64_max)
  /\ (forall request rest,
        exists extra,
          snd (demo_index request
                 (mkFrame false
                    [mkRow (Str "A1") (RawDate (Str "2015/3/1")) (-5);
                     mkRow (Str "A1") (RawDate (Str "2015/3/3")) 100]
                  :: rest))
          = (mkFrame false
               [mkRow (Str "A1") (RawDate (Str "2015/3/1")) (-5);
                mkRow (Str "A1") (RawDate (Str "2015/3/3")) 100]
             :: rest) ++ extra).
Proof.
  destruct (loaded_quantities_are_integers Q no_format (@no_png (Figure Q))
              (option Z) naive_fit naive_forecast to_datetime_ymd
              to_numeric_decimal
              [mkCsvRow (Str "A1") (Str "2015/3/1") (Str "-5");
               mkCsvRow (Str "A1") (Str "2015/3/2") (Str "(100)");
               mkCsvRow (Str "A1") (Str "2015/3/3") (Str "100")]
              (mkFrame false
                 [mkRow (Str "A1") (RawDate (Str "2015/3/1")) (-5);
                  mkRow (Str "A1") (RawDate (Str "2015/3/3")) 100])
              eq_refl) as [_ [Hrange Hstore]].
  split; [reflexivity|]. split; [exact Hrange|exact Hstore].
Defined.

(** * Further properties *)

(** ** The shape of a yearly series *)

Lemma year_range_nil (lo hi : Z) : hi < lo -> year_range lo hi = [].
Proof.
  intros H. unfold year_range.
  replace (Z.to_nat (hi - lo + 1)) with 0%nat by lia. reflexivity.
Qed.

Lemma year_range_cons (lo hi : Z) :
  lo <= hi -> year_range lo hi = lo :: year_range (lo + 1) hi.
Proof.
  intros H. unfold year_range.
  replace (Z.to_nat (hi - lo + 1)) with (S (Z.to_nat (hi - (lo + 1) + 1)))
    by lia.
  simpl. f_equal; [lia|]. rewrite <- seq_shift, map_map.
  apply map_ext. intros i. lia.
Qed.

Lemma year_range_snoc (lo hi : Z) :
  lo <= hi -> year_range lo hi = year_range lo (hi - 1) ++ [hi].
Proof.
  intros H. unfold year_range.
  replace (Z.to_nat (hi - lo + 1)) with (S (Z.to_nat (hi - 1 - lo + 1)))
    by lia.
  rewrite seq_S, map_app. simpl. do 2 f_equal. lia.
Qed.

Lemma length_year_range (lo hi : Z) :
  List.length (year_range lo hi) = Z.to_nat (hi - lo + 1).
Proof.
  unfold year_range. now rewrite length_map, length_seq.
Qed.

(** The window cuts a run of years to the run inside it. *)
Lemma filter_year_range (lo hi : Z) :
  filter in_history_window (year_range lo hi)
  = year_range (Z.max lo 2015) (Z.min hi 2024).
Proof.
  remember (Z.to_nat (hi - lo + 1)) as n eqn:Hn. revert lo Hn.
  induction n as [|n IH]; intros lo Hn.
  - rewrite !year_range_nil by lia. reflexivity.
  - rewrite (year_range_cons lo hi) by lia. simpl.
    rewrite (IH (lo + 1)) by lia. unfold in_history_window.
    destruct (Z.leb_spec 2015 lo) as [H1|H1];
      destruct (Z.leb_spec lo 2024) as [H2|H2]; simpl.
    + rewrite (year_range_cons (Z.max lo 2015)) by lia.
      f_equal; [lia|]. f_equal; lia.
    + rewrite !year_range_nil by lia. reflexivity.
    + f_equal; lia.
    + lia.
Qed.

Lemma series_years_bins (g : Z -> option Z) (years : list Z) :
  series_years (map (fun y => (year_end y, g y)) years) = years.
Proof.
  unfold series_years. rewrite map_map. simpl. apply map_id.
Qed.

Section SeriesShape.

Variable to_datetime : list Cell -> Cell -> option Timestamp.

Lemma first_le_final (pts : list (Timestamp * Z)) :
  pts <> [] -> first_year pts <= final_year pts.
Proof.
  intros H. destruct (first_year_spec H) as [[p [Hp <-]] _].
  destruct (final_year_spec H) as [_ Hl]. now apply Hl.
Qed.

(** What either builder returns, for the dataset as loaded. *)
Lemma returned_series (f : DataFrame) (rest : Store) (pc : string)
  (s : Series) :
  returns (prepare_data to_datetime pc) (f :: rest) s
  \/ returns (get_yearly_demand to_datetime pc) (f :: rest) (Some s) ->
  s = []
  \/ (indexed f = false
      /\ product_points to_datetime f pc <> []
      /\ bins_in_bounds (product_points to_datetime f pc) = true
      /\ s = map (fun y => (year_end y,
                    Some (year_total (product_points to_datetime f pc) y)))
               (year_range
                  (Z.max (first_year (product_points to_datetime f pc)) 2015)
                  (Z.min (final_year (product_points to_datetime f pc)) 2024))).
Proof.
  intros H.
  assert (Hs : s = [] \/ yearly_series to_datetime f pc = Some s).
  { unfold returns in H. destruct H as [H|H].
    - rewrite prepare_data_result, prepared_series_yearly in H.
      injection H as H.
      destruct (yearly_series to_datetime f pc); [right; now subst|now left].
    - rewrite get_yearly_demand_result in H. injection H as H. now right. }
  destruct Hs as [Hs|Hs]; [now left|].
  destruct s as [|p tl]; [now left|right].
  assert (Hne : p :: tl <> []) by discriminate.
  destruct (yearly_series_points to_datetime f pc Hs Hne)
    as [Hix [Hpts Hb]].
  repeat split; auto.
  rewrite (yearly_series_bins to_datetime f pc Hix Hpts Hb) in Hs.
  rewrite filter_year_range in Hs. now injection Hs as <-.
Qed.

Lemma prepared_series_loaded (f : DataFrame) (pc : string) :
  indexed f = false ->
  product_points to_datetime f pc <> [] ->
  bins_in_bounds (product_points to_datetime f pc) = true ->
  prepared_series to_datetime f pc
  = map (fun y => (year_end y,
                   Some (year_total (product_points to_datetime f pc) y)))
      (year_range (Z.max (first_year (product_points to_datetime f pc)) 2015)
                  (Z.min (final_year (product_points to_datetime f pc)) 2024)).
Proof.
  intros Hix Hpts Hb.
  rewrite prepared_series_yearly,
    (yearly_series_bins to_datetime f pc Hix Hpts Hb).
  now rewrite filter_year_range.
Qed.

(** X1.  For a product with a dated record, whose dates leave pandas room
    for the yearly bins (none in 1677, none in 2262, none on the last day of
    2261): the years of its series run without gap or repetition, in
    increasing order, from the later of 2015 and the year of its first record
    to the earlier of 2024 and the year of its last record; when that run is
    not empty the series ends in its last year. *)
Theorem series_years_are_consecutive (f : DataFrame) (rest : Store)
  (pc : string) (s : Series) :
  indexed f = false ->
  product_points to_datetime f pc <> [] ->
  bins_in_bounds (product_points to_datetime f pc) = true ->
  returns (prepare_data to_datetime pc) (f :: rest) s ->
  series_years s
  = year_range (Z.max (first_year (product_points to_datetime f pc)) 2015)
               (Z.min (final_year (product_points to_datetime f pc)) 2024)
  /\ (s <> [] ->
      last_year s
      = Ok (Z.min (final_year (product_points to_datetime f pc)) 2024)).
Proof.
  intros Hix Hpts Hb H. unfold returns in H.
  rewrite prepare_data_result, (prepared_series_loaded f pc Hix Hpts Hb) in H.
  injection H as <-. rewrite series_years_bins. split; [reflexivity|].
  set (lo := Z.max (first_year (product_points to_datetime f pc)) 2015).
  set (hi := Z.min (final_year (product_points to_datetime f pc)) 2024).
  intros Hne.
  assert (Hle : lo <= hi).
  { destruct (Z_le_gt_dec lo hi) as [Hle|Hgt]; [exact Hle|].
    rewrite year_range_nil in Hne by lia. now destruct Hne. }
  rewrite (year_range_snoc lo hi Hle), map_app. unfold last_year.
  rewrite rev_app_distr. reflexivity.
Qed.

(** X2.  A series returned by either builder has at most ten points. *)
Theorem series_has_at_most_ten_points (f : DataFrame) (rest : Store)
  (pc : string) (s : Series) :
  returns (prepare_data to_datetime pc) (f :: rest) s
  \/ returns (get_yearly_demand to_datetime pc) (f :: rest) (Some s) ->
  (List.length s <= 10)%nat.
Proof.
  intros H. destruct (returned_series f rest pc s H) as [->|[_ [_ [_ ->]]]].
  - simpl. lia.
  - rewrite length_map, length_year_range. lia.
Qed.

Lemma yearly_series_none_iff (f : DataFrame) (pc : string) :
  indexed f = false ->
  (yearly_series to_datetime f pc = None
   <-> product_points to_datetime f pc = []
       \/ bins_in_bounds (product_points to_datetime f pc) = false).
Proof.
  intros Hix. split.
  - intros Hy.
    destruct (product_points to_datetime f pc) as [|q pts] eqn:Hpts;
      [now left|].
    assert (Hne : product_points to_datetime f pc <> [])
      by (rewrite Hpts; discriminate).
    destruct (bins_in_bounds (q :: pts)) eqn:Hb; [|now right].
    rewrite <- Hpts in Hb.
    rewrite (yearly_series_bins to_datetime f pc Hix Hne Hb) in Hy.
    discriminate.
  - intros H.
    assert (Hcases : product_points to_datetime f pc = []
                     \/ (product_points to_datetime f pc <> []
                         /\ bins_in_bounds (product_points to_datetime f pc)
                            = false)).
    { destruct (product_points to_datetime f pc) as [|q pts] eqn:Hpts;
        [now left|right]. split; [discriminate|].
      destruct H as [H|H]; [discriminate|exact H]. }
    destruct Hcases as [Hpts|[Hpts Hb]].
    + unfold yearly_series. unfold product_points in Hpts.
      destruct (product_rows f pc) as [|r rs] eqn:Hr; [reflexivity|].
      rewrite Hix, resample_all_NaT; [reflexivity|discriminate|exact Hpts].
    + now apply yearly_series_out_of_bounds.
Qed.

Lemma prepared_series_empty_iff (f : DataFrame) (pc : string) :
  indexed f = false ->
  (prepared_series to_datetime f pc = []
   <-> product_points to_datetime f pc = []
       \/ bins_in_bounds (product_points to_datetime f pc) = false
       \/ final_year (product_points to_datetime f pc) < 2015
       \/ 2024 < first_year (product_points to_datetime f pc)).
Proof.
  intros Hix.
  destruct (yearly_series to_datetime f pc) as [h|] eqn:Hy.
  - assert (Hno : ~ (product_points to_datetime f pc = []
                     \/ bins_in_bounds (product_points to_datetime f pc)
                        = false)).
    { intros H. apply (yearly_series_none_iff f pc Hix) in H. congruence. }
    assert (Hne : product_points to_datetime f pc <> []) by tauto.
    assert (Hb : bins_in_bounds (product_points to_datetime f pc) = true).
    { destruct (bins_in_bounds (product_points to_datetime f pc));
        [reflexivity|tauto]. }
    pose proof (first_le_final _ Hne) as Hord.
    rewrite (prepared_series_loaded f pc Hix Hne Hb). split.
    + intros E. apply (f_equal (@List.length _)) in E.
      rewrite length_map, length_year_range in E. cbn [List.length] in E.
      right. right. lia.
    + intros [E|[E|E]]; [tauto|congruence|].
      rewrite year_range_nil by lia. reflexivity.
  - rewrite prepared_series_yearly, Hy.
    apply (yearly_series_none_iff f pc Hix) in Hy. tauto.
Qed.

(** X3.  For the dataset as loaded: [get_yearly_demand] returns [None]
    exactly for a product without any record that has a readable date and for
    one whose dates leave pandas no room for the yearly bins; the series
    [prepare_data] returns is empty exactly for such a product and for one
    whose dated records all lie before 2015 or all after 2024. *)
Theorem empty_series_iff (f : DataFrame) (rest : Store) (pc : string)
  (s : Series) (historical_data : option Series) :
  indexed f = false ->
  returns (prepare_data to_datetime pc) (f :: rest) s ->
  returns (get_yearly_demand to_datetime pc) (f :: rest) historical_data ->
  (historical_data = None
   <-> product_points to_datetime f pc = []
       \/ bins_in_bounds (product_points to_datetime f pc) = false)
  /\ (s = [] <->
      product_points to_datetime f pc = []
      \/ bins_in_bounds (product_points to_datetime f pc) = false
      \/ final_year (product_points to_datetime f pc) < 2015
      \/ 2024 < first_year (product_points to_datetime f pc)).
Proof.
  intros Hix Hs Hh. unfold returns in Hs, Hh.
  rewrite prepare_data_result in Hs. rewrite get_yearly_demand_result in Hh.
  injection Hs as <-. injection Hh as <-. split.
  - now apply yearly_series_none_iff.
  - now apply prepared_series_empty_iff.
Qed.

End SeriesShape.

(** ** Totals *)

Lemma wrap64_add_l (x v : Z) : wrap64 (wrap64 x + v) = wrap64 (x + v).
Proof.
  unfold wrap64. f_equal.
  replace ((x + 2 ^ 63) mod 2 ^ 64 - 2 ^ 63 + v + 2 ^ 63)
    with ((x + 2 ^ 63) mod 2 ^ 64 + v) by lia.
  rewrite Zplus_mod_idemp_l. f_equal. lia.
Qed.

Lemma wrap64_small (z : Z) : int64_min <= z <= int64_max -> wrap64 z = z.
Proof.
  unfold wrap64, int64_min, int64_max.
  change (2 ^ 63) with 9223372036854775808.
  change (2 ^ 64) with 18446744073709551616.
  intros H. rewrite Z.mod_small; lia.
Qed.

(** The 64-bit sum is the exact sum, wrapped once. *)
Lemma sum_int64_exact (l : list Z) : sum_int64 l = wrap64 (exact_sum l).
Proof.
  unfold sum_int64.
  assert (H : forall a,
            fold_left (fun acc v => wrap64 (acc + v)) l (wrap64 a)
            = wrap64 (a + exact_sum l)).
  { induction l as [|v l IH]; intros a; simpl.
    - now rewrite Z.add_0_r.
    - rewrite wrap64_add_l, IH. f_equal. lia. }
  apply (H 0).
Qed.

Section Totals.

Variable to_datetime : list Cell -> Cell -> option Timestamp.

(** The series of a product is a function of the rows selected for it. *)
Lemma yearly_series_rows (f f' : DataFrame) (pc : string) :
  indexed f = indexed f' ->
  product_rows f pc = product_rows f' pc ->
  yearly_series to_datetime f pc = yearly_series to_datetime f' pc.
Proof.
  intros Hix H. unfold yearly_series. now rewrite Hix, H.
Qed.

(** X4.  The value of every point of a returned series is the sum of the
    quantities of the product's records of that year, taken in 64 bits: the
    exact sum wrapped, and the exact sum itself whenever that fits. *)
Theorem point_is_sum_of_year (f : DataFrame) (rest : Store) (pc : string)
  (s : Series) (p : Timestamp * option Z) :
  returns (prepare_data to_datetime pc) (f :: rest) s
  \/ returns (get_yearly_demand to_datetime pc) (f :: rest) (Some s) ->
  In p s ->
  snd p
  = Some (wrap64 (exact_sum
                    (year_quantities (product_points to_datetime f pc)
                       (year (fst p)))))
  /\ (int64_min
      <= exact_sum (year_quantities (product_points to_datetime f pc)
                      (year (fst p)))
      <= int64_max ->
      snd p
      = Some (exact_sum (year_quantities (product_points to_datetime f pc)
                           (year (fst p))))).
Proof.
  intros H Hp.
  destruct (returned_series to_datetime f rest pc s H)
    as [->|[_ [_ [_ ->]]]]; [destruct Hp|].
  apply in_map_iff in Hp as [y [<- _]]. simpl.
  unfold year_total. fold (year_quantities (product_points to_datetime f pc) y).
  rewrite sum_int64_exact. split; [reflexivity|].
  intros Hfit. now rewrite wrap64_small.
Qed.

(** X6.  The series of a product does not depend on the records of other
    products: rows added for other codes change nothing. *)
Theorem series_ignores_other_products (f : DataFrame) (others : list Row)
  (rest rest' : Store) (pc : string) :
  (forall r, In r others -> Product_Code r <> Str pc) ->
  fst (prepare_data to_datetime pc
         (mkFrame (indexed f) (rows f ++ others) :: rest'))
  = fst (prepare_data to_datetime pc (f :: rest))
  /\ fst (get_yearly_demand to_datetime pc
            (mkFrame (indexed f) (rows f ++ others) :: rest'))
     = fst (get_yearly_demand to_datetime pc (f :: rest)).
Proof.
  intros H.
  rewrite !prepare_data_result, !get_yearly_demand_result,
    !prepared_series_yearly.
  rewrite (yearly_series_rows (mkFrame (indexed f) (rows f ++ others)) f pc);
    [split; reflexivity|reflexivity|].
  unfold product_rows. simpl rows. rewrite filter_app.
  pose proof (product_rows_unknown (mkFrame false others) H) as E.
  unfold product_rows in E. simpl in E. rewrite E, app_nil_r.
  reflexivity.
Qed.

End Totals.

(** ** Requests, pages and charts *)

Lemma b64encode_nonempty (bs : list Byte.byte) :
  bs <> [] -> truthy_string (Some (b64encode bs)) = Some (b64encode bs).
Proof.
  intros H. destruct bs as [|b [|b2 [|b3 tl]]]; [now destruct H| | |];
    reflexivity.
Qed.

Section Requests.

Variable float : Type.
Variable format_0f : float -> string.
Variable savefig : Figure float -> result (list Byte.byte).
Variable ARIMAResults : Type.
Variable ARIMA_fit : Series -> nat * nat * nat -> result ARIMAResults.
Variable ARIMA_forecast : ARIMAResults -> nat -> result (list float).
Variable to_datetime : list Cell -> Cell -> option Timestamp.

Local Abbreviation handler :=
  (index format_0f savefig ARIMA_fit ARIMA_forecast to_datetime).
Local Abbreviation responds :=
  (respond format_0f savefig ARIMA_fit ARIMA_forecast).

(** What a request is answered with depends on the dataset alone, not on
    what else the store holds. *)
Lemma handler_answer (request : Request) (f : DataFrame) (rest rest' : Store) :
  fst (handler request (f :: rest)) = fst (handler request (f :: rest')).
Proof.
  destruct request as [|form]; [reflexivity|].
  destruct (form_get form "product_code") as [pc|e] eqn:Hform.
  - destruct (index_post_run format_0f savefig ARIMA_fit ARIMA_forecast
                to_datetime f rest form Hform) as [x H].
    destruct (index_post_run format_0f savefig ARIMA_fit ARIMA_forecast
                to_datetime f rest' form Hform) as [x' H'].
    now rewrite H, H'.
  - unfold index. now rewrite Hform.
Qed.

(** X7.  Requests do not interfere: after any request the dataset is still
    the first object of the store, and any request is answered as it would
    have been without the earlier one. *)
Theorem requests_do_not_interfere (earlier later : Request) (f : DataFrame)
  (rest : Store) :
  nth_error (snd (handler earlier (f :: rest))) data = Some f
  /\ fst (handler later (snd (handler earlier (f :: rest))))
     = fst (handler later (f :: rest)).
Proof.
  assert (H : exists extra,
            snd (handler earlier (f :: rest)) = (f :: rest) ++ extra).
  { destruct earlier as [|form].
    - exists []. rewrite index_get_run. simpl. now rewrite app_nil_r.
    - destruct (form_get form "product_code") as [pc|e] eqn:Hform.
      + destruct (index_post_run format_0f savefig ARIMA_fit ARIMA_forecast
                    to_datetime f rest form Hform) as [extra H].
        exists extra. now rewrite H.
      + exists []. unfold index. rewrite Hform. simpl.
        now rewrite app_nil_r. }
  destruct H as [extra ->]. simpl. split; [reflexivity|].
  apply handler_answer.
Qed.

(** What a request that passes the three checks ends in. *)
Lemma handler_success (f : DataFrame) (rest : Store)
  (form : list (string * string)) (pc : string) (series : Series) (last : Z)
  (model_fit : ARIMAResults) (fv : list float) :
  form_get form "product_code" = Ok pc ->
  returns (prepare_data to_datetime pc) (f :: rest) series ->
  last_year series = Ok last ->
  train_arima ARIMA_fit series = Some model_fit ->
  predict_demand ARIMA_forecast model_fit 5 = Some fv ->
  fst (handler (POST form) (f :: rest))
  = success_result pc (shown_items last fv)
      (savefig (historical_figure (historical_artists float series) pc))
      (savefig (forecast_figure
                  (forecast_artists format_0f (shown_items last fv)) pc))
  /\ 2015 <= last <= 2024.
Proof.
  unfold returns. intros Hform Hs HL Hfit Hfc.
  rewrite prepare_data_result in Hs. injection Hs as Hs.
  assert (Hh : yearly_series to_datetime f pc = Some series).
  { rewrite prepared_series_yearly in Hs.
    destruct (yearly_series to_datetime f pc) as [h|]; [now subst|].
    subst series. discriminate. }
  split.
  - destruct (index_post_run format_0f savefig ARIMA_fit ARIMA_forecast
                to_datetime f rest form Hform) as [extra H].
    rewrite H, Hs, Hh. simpl fst.
    apply (@respond_success _ format_0f savefig _ ARIMA_fit ARIMA_forecast
             pc _ last model_fit _ HL Hfit Hfc).
  - destruct (last_year_in _ HL) as [p [Hp <-]].
    apply (yearly_series_window to_datetime f pc Hh p Hp).
Qed.

Lemma displayed_of_context (pc : string) (d : dict string float)
  (h p : option string) :
  displayed_forecast (render_template_string (mkContext (Some pc) (Some d) None h p))
  = d.
Proof.
  unfold displayed_forecast, render_template_string.
  cbn [forecast_block ctx_forecast]. now destruct d.
Qed.

(** The years of the entries shown, for five predicted values. *)
Lemma shown_years (last : Z) (v0 v1 v2 v3 v4 : float) :
  2015 <= last <= 2024 ->
  keys (shown_items last [v0; v1; v2; v3; v4]) = year_range 2025 (last + 5).
Proof.
  intros Hlast.
  assert (Hcases : last = 2015 \/ last = 2016 \/ last = 2017 \/ last = 2018
                   \/ last = 2019 \/ last = 2020 \/ last = 2021
                   \/ last = 2022 \/ last = 2023 \/ last = 2024) by lia.
  repeat (destruct Hcases as [->|Hcases]; [reflexivity|]).
  subst. reflexivity.
Qed.

(** X8.  On a request that passed the three checks, with five predicted
    values, the forecast the handler passes on has the years 2025 up to five
    years after the last year of the series: [last - 2019] of them, five only
    for a series that reaches 2024.  When both charts are rasterised the
    request returns the page that lists exactly these years. *)
Theorem displayed_forecast_years (f : DataFrame) (rest : Store)
  (form : list (string * string)) (pc : string) (series : Series) (last : Z)
  (model_fit : ARIMAResults) (v0 v1 v2 v3 v4 : float) :
  form_get form "product_code" = Ok pc ->
  returns (prepare_data to_datetime pc) (f :: rest) series ->
  last_year series = Ok last ->
  train_arima ARIMA_fit series = Some model_fit ->
  predict_demand ARIMA_forecast model_fit 5 = Some [v0; v1; v2; v3; v4] ->
  keys (shown_items last [v0; v1; v2; v3; v4]) = year_range 2025 (last + 5)
  /\ List.length (shown_items last [v0; v1; v2; v3; v4])
     = Z.to_nat (last - 2019)
  /\ forall historical_png forecast_png,
       savefig (historical_figure (historical_artists float series) pc)
       = Ok historical_png ->
       savefig (forecast_figure
                  (forecast_artists format_0f
                     (shown_items last [v0; v1; v2; v3; v4])) pc)
       = Ok forecast_png ->
       exists page,
         returns (handler (POST form)) (f :: rest) page
         /\ map fst (displayed_forecast page)
            = map str (year_range 2025 (last + 5))
         /\ List.length (displayed_forecast page) = Z.to_nat (last - 2019).
Proof.
  intros Hform Hs HL Hfit Hfc.
  destruct (handler_success f rest form pc series last model_fit _
              Hform Hs HL Hfit Hfc) as [Hpage Hlast].
  pose proof (shown_years last v0 v1 v2 v3 v4 Hlast) as Hk.
  assert (Hlen : List.length (shown_items last [v0; v1; v2; v3; v4])
                 = Z.to_nat (last - 2019)).
  { rewrite <- (length_map fst). fold (keys (shown_items last [v0; v1; v2; v3; v4])).
    rewrite Hk, length_year_range. f_equal. lia. }
  split; [exact Hk|]. split; [exact Hlen|].
  intros h g Hh Hg. rewrite Hh, Hg in Hpage.
  eexists. split; [exact Hpage|].
  unfold success_page. rewrite displayed_of_context.
  split.
  - rewrite <- Hk. unfold str_keys, keys. rewrite !map_map. reflexivity.
  - unfold str_keys. rewrite length_map. exact Hlen.
Qed.

(** With five values and a series ending before 2020, no forecast year
    falls in 2025..2029. *)
Lemma shown_items_empty (last : Z) (fv : list float) :
  List.length fv = 5%nat -> last < 2020 ->
  shown_items last fv = [].
Proof.
  intros Hlen Hlast.
  destruct (shown_items last fv) as [|yd l] eqn:E; [reflexivity|].
  exfalso.
  assert (Hin : In yd (shown_items last fv)) by (rewrite E; now left).
  pose proof (shown_items_window _ _ _ _ Hin) as [Hw _].
  unfold shown_items in Hin. apply filter_In in Hin as [Hin _].
  assert (Hk : In (fst yd) (keys (forecast_items last fv)))
    by (unfold keys; apply in_map_iff; now exists yd).
  rewrite forecast_items_years, Hlen in Hk.
  apply in_map_iff in Hk as [i [Hi Hseq]]. apply in_seq in Hseq. lia.
Qed.

(** X9.  On a request that passed the three checks the handler has both
    charts rasterised, the historical line of the series and the chart of the
    forecast entries shown.  When the rasteriser returns an image for each,
    neither of them empty, the page embeds both, under the product's code,
    and carries no error. *)
Theorem success_page_charts (f : DataFrame) (rest : Store)
  (form : list (string * string)) (pc : string) (series : Series) (last : Z)
  (model_fit : ARIMAResults) (fv : list float)
  (historical_png forecast_png : list Byte.byte) :
  form_get form "product_code" = Ok pc ->
  returns (prepare_data to_datetime pc) (f :: rest) series ->
  last_year series = Ok last ->
  train_arima ARIMA_fit series = Some model_fit ->
  predict_demand ARIMA_forecast model_fit 5 = Some fv ->
  savefig (historical_figure
             [HistoricalLine (series_years series) (map snd series)
                "Historical Demand" "o" "-" "blue"] pc)
  = Ok historical_png ->
  savefig (forecast_figure
             (forecast_artists format_0f (shown_items last fv)) pc)
  = Ok forecast_png ->
  historical_png <> [] ->
  forecast_png <> [] ->
  exists page,
    returns (handler (POST form)) (f :: rest) page
    /\ error_block page = None
    /\ historical_block page = Some (Some pc, b64encode historical_png)
    /\ forecast_plot_block page = Some (Some pc, b64encode forecast_png).
Proof.
  intros Hform Hs HL Hfit Hfc Hh Hg Hhne Hgne.
  destruct (handler_success f rest form pc series last model_fit fv
              Hform Hs HL Hfit Hfc) as [Hpage Hlast].
  assert (Hline : historical_artists float series
                  = [HistoricalLine (series_years series) (map snd series)
                       "Historical Demand" "o" "-" "blue"]).
  { destruct series as [|p tl]; [discriminate|reflexivity]. }
  rewrite Hline, Hh, Hg in Hpage.
  eexists. split; [exact Hpage|].
  unfold success_page, render_template_string.
  cbn [error_block historical_block forecast_plot_block forecast_block
       ctx_error ctx_forecast ctx_product_code ctx_historical_plot_url
       ctx_forecast_plot_url].
  rewrite !b64encode_nonempty by assumption.
  repeat split; reflexivity.
Qed.

(** X15.  A request that passed the three checks for a series that ends
    before 2020 shows no forecast year: the forecast figure it has rasterised
    holds the "no forecast data" message and nothing else.  The handler
    catches no exception of the rasteriser: when it raises on that figure,
    the request raises. *)
Theorem short_history_request_raises (f : DataFrame) (rest : Store)
  (form : list (string * string)) (pc : string) (series : Series) (last : Z)
  (model_fit : ARIMAResults) (fv : list float)
  (historical_png : list Byte.byte) (e : exn) :
  form_get form "product_code" = Ok pc ->
  returns (prepare_data to_datetime pc) (f :: rest) series ->
  last_year series = Ok last ->
  train_arima ARIMA_fit series = Some model_fit ->
  predict_demand ARIMA_forecast model_fit 5 = Some fv ->
  List.length fv = 5%nat ->
  last < 2020 ->
  savefig (historical_figure (historical_artists float series) pc)
  = Ok historical_png ->
  savefig (forecast_figure [Text (1 # 2) (1 # 2) no_forecast_data] pc)
  = Raise e ->
  forecast_artists format_0f (shown_items last fv)
  = [Text (1 # 2) (1 # 2) no_forecast_data]
  /\ fst (handler (POST form) (f :: rest)) = Raise e.
Proof.
  intros Hform Hs HL Hfit Hfc Hlen Hlast Hh Hg.
  destruct (handler_success f rest form pc series last model_fit fv
              Hform Hs HL Hfit Hfc) as [Hpage _].
  rewrite (shown_items_empty last fv Hlen Hlast) in *.
  split; [reflexivity|].
  rewrite Hpage, Hh. cbn [forecast_artists]. rewrite Hg. reflexivity.
Qed.

End Requests.

Section ChartFacts.

Variable float : Type.
Variable format_0f : float -> string.
Variable savefig : Figure float -> result (list Byte.byte).

(** X10.  Given a mapping from years, written in decimal, to values,
    [create_forecast_plot] draws exactly the entries whose year lies in
    2025..2029, in the order of the mapping: one line through them and one
    annotation each; with no such entry it draws the "no forecast data"
    message alone.  It returns the base64 text of the image the rasteriser
    makes of that figure, and raises exactly when the rasteriser does. *)
Theorem forecast_plot_draws_window (items : list (Z * float)) (pc : string) :
  NoDup (keys items) ->
  create_forecast_plot format_0f savefig (str_keys items) pc
  = encoded
      (savefig
         (forecast_figure
            (forecast_artists format_0f
               (filter (fun yd => in_forecast_window (fst yd)) items))
            pc)).
Proof.
  intros Hnd. unfold create_forecast_plot, encoded.
  set (shown := filter (fun yd : Z * float => in_forecast_window (fst yd))
                  items).
  assert (Hk : traverse int (keys (str_keys items)) = Ok (keys items)).
  { unfold keys, str_keys. rewrite map_map. simpl.
    rewrite <- (map_map fst str).
    rewrite (traverse_ok int (fun s => match int s with Ok z => z | _ => 0 end)).
    - f_equal. rewrite map_map. erewrite map_ext; [apply map_id|].
      intros a. simpl. now rewrite int_str.
    - intros s Hs. apply in_map_iff in Hs as [z [<- _]]. now rewrite int_str. }
  rewrite Hk.
  assert (Hf : filter in_forecast_window (keys items) = keys shown).
  { unfold shown, keys. clear.
    induction items as [|yd l IH]; [reflexivity|]. simpl.
    destruct (in_forecast_window (fst yd)); simpl; now rewrite IH. }
  rewrite Hf.
  assert (Hg : forall sub, incl sub items ->
            traverse (fun y => match dict_get String.eqb (str_keys items) (str y)
                               with
                               | Ok v => Ok (y, v)
                               | Raise e => Raise e
                               end) (keys sub) = Ok sub).
  { induction sub as [|[y v] sub IH]; intros Hincl; [reflexivity|].
    unfold keys in *. cbn [map traverse fst].
    rewrite (@dict_get_in _ _ String.eqb string_eqb_eq (str_keys items)
               (str y) v).
    - rewrite IH; [reflexivity|]. intros x Hx. apply Hincl. now right.
    - now apply str_keys_nodup.
    - unfold str_keys. apply in_map_iff. exists (y, v). split; [reflexivity|].
      apply Hincl. now left. }
  rewrite (Hg shown) by (intros x Hx; unfold shown in Hx;
                         now apply filter_In in Hx).
  rewrite (@dict_of_items_nodup _ _ Z.eqb Z.eqb_eq)
    by (apply filter_keys_nodup, Hnd).
  unfold forecast_artists, plot.
  destruct shown as [|yd l]; [reflexivity|].
  unfold keys, values. rewrite !length_map, Nat.eqb_refl. reflexivity.
Qed.


End ChartFacts.

(** ** Start-up and the list of products *)

Lemma traverse_raise_iff {A B} (g : A -> result B) (l : list A) :
  (exists e, traverse g l = Raise e)
  <-> exists a e, In a l /\ g a = Raise e.
Proof.
  induction l as [|a l IH]; simpl.
  - split; [intros [e H]; discriminate|intros [a [e [[] _]]]].
  - destruct (g a) as [b|e] eqn:Ea.
    + destruct (traverse g l) as [bs|e'] eqn:El.
      * split; [intros [e H]; discriminate|].
        intros [a' [e [[<-|Hin] Hr]]]; [congruence|].
        destruct (proj2 IH) as [e' He']; [now exists a', e|discriminate].
      * split; [|intros _; now exists e'].
        intros _. destruct (proj1 IH) as [a' [e [Hin Hr]]]; [now exists e'|].
        exists a', e. auto.
    + split; [|intros _; now exists e].
      intros _. exists a, e. auto.
Qed.

(** X12.  The process starts serving unless the file cannot be read or one
    of its quantities is infinite: those are the two ways the load ends the
    process.  Missing and non-numeric quantities never stop it. *)
Theorem load_fails_iff (to_numeric : list Cell -> Cell -> Numeric)
  (read_csv : result (list CsvRow)) :
  load to_numeric read_csv = None
  <-> (exists e, read_csv = Raise e)
      \/ (exists csv row,
            read_csv = Ok csv /\ In row csv
            /\ to_numeric (map csv_Order_Demand csv) (csv_Order_Demand row)
               = Infinity).
Proof.
  destruct read_csv as [csv|e0]; simpl.
  - match goal with
    | |- match traverse ?g ?l with _ => _ end = _ <-> _ =>
        pose proof (traverse_raise_iff g l) as Hiff;
        destruct (traverse g l) as [rs|e] eqn:E
    end.
    + split; [discriminate|]. intros [[e H]|[csv' [row [Hc [Hin Hinf]]]]];
        [discriminate|]. injection Hc as <-.
      destruct (proj2 Hiff) as [e He]; [|discriminate].
      exists (row, to_numeric (map csv_Order_Demand csv)
                     (csv_Order_Demand row)), IntCastingNaNError.
      split.
      * apply filter_In. split.
        -- apply in_map_iff. now exists row.
        -- simpl. now rewrite Hinf.
      * simpl. now rewrite Hinf.
    + split; [|reflexivity]. intros _. right.
      destruct (proj1 Hiff) as [[row n] [e' [Hin Hr]]]; [now exists e|].
      apply filter_In in Hin as [Hin Hnan].
      apply in_map_iff in Hin as [row' [[= -> <-] Hin]].
      exists csv, row. repeat split; auto.
      simpl in Hr, Hnan.
      destruct (to_numeric (map csv_Order_Demand csv) (csv_Order_Demand row));
        try discriminate.
      reflexivity.
  - split; [intros _; left; now exists e0|reflexivity].
Qed.

Lemma cell_eqb_refl (c : Cell) : cell_eqb c c = true.
Proof.
  destruct c as [|s|q]; simpl; [reflexivity|apply String.eqb_refl|].
  apply Qeq_bool_iff. reflexivity.
Qed.

Lemma cell_eqb_Str (c : Cell) (s : string) :
  cell_eqb c (Str s) = true -> c = Str s.
Proof.
  destruct c as [|x|q]; simpl; try discriminate.
  intros H. apply String.eqb_eq in H. now subst.
Qed.

Lemma in_unique_sub (l : list Cell) (c : Cell) : In c (unique l) -> In c l.
Proof.
  revert c. induction l as [|c0 l IH]; intros c; simpl; [tauto|].
  rewrite filter_In. intros [H|[H _]]; auto.
Qed.

Lemma in_unique_Str (l : list Cell) (s : string) :
  In (Str s) l -> In (Str s) (unique l).
Proof.
  induction l as [|c0 l IH]; simpl; [tauto|].
  intros [H|H]; [now left|].
  destruct (cell_eqb c0 (Str s)) eqn:E.
  - left. now apply cell_eqb_Str.
  - right. apply filter_In. split; [now apply IH|]. now rewrite E.
Qed.

Lemma unique_nodup (l : list Cell) : NoDup (unique l).
Proof.
  induction l as [|c0 l IH]; simpl; [constructor|].
  constructor.
  - intros H. apply filter_In in H as [_ H].
    rewrite cell_eqb_refl in H. discriminate.
  - now apply NoDup_filter.
Qed.

(** X13.  The list of products offered for selection holds no value twice,
    and every value it holds is the code of a record.  A code that is a text
    is offered exactly when its selection of records is not empty.  A record
    whose code was read as a number, or is missing, is selected by no
    submitted code: for a dataset whose codes were all read as numbers every
    selection is empty. *)
Theorem products_are_the_codes_present (f : DataFrame) :
  NoDup (products f)
  /\ (forall c, In c (products f) ->
                exists r, In r (rows f) /\ Product_Code r = c)
  /\ (forall pc, In (Str pc) (products f) <-> product_rows f pc <> [])
  /\ (forall r pc, In r (product_rows f pc) -> Product_Code r = Str pc)
  /\ ((forall r, In r (rows f) -> exists q, Product_Code r = Num q) ->
      forall pc, product_rows f pc = []).
Proof.
  unfold products. split; [apply unique_nodup|]. split.
  { intros c Hc. apply in_unique_sub, in_map_iff in Hc as [r [E Hr]].
    now exists r. }
  split.
  { intros pc. unfold product_rows. split.
    - intros Hin Hnil.
      apply in_unique_sub, in_map_iff in Hin as [r [E Hr]].
      assert (Hsel : In r (filter (fun r => code_eqb (Product_Code r) pc)
                             (rows f))).
      { apply filter_In. split; [exact Hr|]. now apply code_eqb_eq. }
      rewrite Hnil in Hsel. destruct Hsel.
    - intros Hne.
      destruct (filter (fun r => code_eqb (Product_Code r) pc) (rows f))
        as [|r rs] eqn:E; [now destruct Hne|].
      assert (Hin : In r (filter (fun r => code_eqb (Product_Code r) pc)
                            (rows f))) by (rewrite E; now left).
      apply filter_In in Hin as [Hr Hc]. apply code_eqb_eq in Hc.
      apply in_unique_Str, in_map_iff. now exists r. }
  split.
  { intros r pc Hr. unfold product_rows in Hr.
    apply filter_In in Hr as [_ Hc]. now apply code_eqb_eq. }
  intros Hnum pc. apply product_rows_unknown.
  intros r Hr E. destruct (Hnum r Hr) as [q Hq]. congruence.
Qed.

(** ** When the answer is "no data" *)

Section NoData.

Variable float : Type.
Variable format_0f : float -> string.
Variable savefig : Figure float -> result (list Byte.byte).
Variable ARIMAResults : Type.
Variable ARIMA_fit : Series -> nat * nat * nat -> result ARIMAResults.
Variable ARIMA_forecast : ARIMAResults -> nat -> result (list float).
Variable to_datetime : list Cell -> Cell -> option Timestamp.

Local Abbreviation handler :=
  (index format_0f savefig ARIMA_fit ARIMA_forecast to_datetime).
Local Abbreviation responds :=
  (respond format_0f savefig ARIMA_fit ARIMA_forecast).

Lemma success_result_page (pc : string) (items : list (Z * float))
  (h g : result (list Byte.byte)) (page : Page float) :
  success_result pc items h g = Ok page ->
  page <> mkPage None (Some no_data_message) None None.
Proof.
  unfold success_result.
  destruct h as [hp|e]; [|discriminate]. destruct g as [gp|e]; [|discriminate].
  intros [= <-]. unfold success_page, render_template_string.
  cbn [error_block ctx_error truthy_string]. discriminate.
Qed.

Lemma responds_with_data (pc : string) (p : Timestamp * option Z)
  (tl : Series) (page : Page float) :
  responds pc (p :: tl) (Some (p :: tl)) = Ok page ->
  page <> mkPage None (Some no_data_message) None None.
Proof.
  destruct (train_arima ARIMA_fit (p :: tl)) as [model_fit|] eqn:Hfit.
  - destruct (predict_demand ARIMA_forecast model_fit 5) as [fv|] eqn:Hfc.
    + destruct (last_year_nonempty p tl) as [last HL].
      pose proof (@respond_success _ format_0f savefig _ ARIMA_fit
                    ARIMA_forecast pc _ last model_fit fv HL Hfit Hfc) as H.
      intros Hpage.
      exact (success_result_page _ _ _ _ _ (eq_trans (eq_sym H) Hpage)).
    + unfold respond. cbn [is_empty]. rewrite Hfit, Hfc.
      intros [= <-]. discriminate.
  - unfold respond. cbn [is_empty]. rewrite Hfit. intros [= <-]. discriminate.
Qed.

(** X14.  For the dataset as loaded, a submission that is answered with a
    page is answered with the "No data found" page exactly when the product
    has no record with a readable date, or its dates leave pandas no room for
    the yearly bins, or all its dated records lie before 2015, or all after
    2024. *)
Theorem no_data_page_iff (f : DataFrame) (rest : Store)
  (form : list (string * string)) (pc : string) (page : Page float) :
  indexed f = false ->
  form_get form "product_code" = Ok pc ->
  returns (handler (POST form)) (f :: rest) page ->
  (page = mkPage None (Some no_data_message) None None
   <-> product_points to_datetime f pc = []
       \/ bins_in_bounds (product_points to_datetime f pc) = false
       \/ final_year (product_points to_datetime f pc) < 2015
       \/ 2024 < first_year (product_points to_datetime f pc)).
Proof.
  intros Hix Hform Hpage. unfold returns in Hpage.
  destruct (index_post_run format_0f savefig ARIMA_fit ARIMA_forecast
              to_datetime f rest form Hform) as [extra H].
  rewrite H in Hpage. simpl fst in Hpage. clear H.
  rewrite <- (prepared_series_empty_iff to_datetime f pc Hix).
  destruct (prepared_series to_datetime f pc) as [|p tl] eqn:Hs.
  - unfold respond in Hpage. simpl in Hpage. injection Hpage as <-.
    split; reflexivity.
  - assert (Hh : yearly_series to_datetime f pc = Some (p :: tl)).
    { rewrite prepared_series_yearly in Hs.
      destruct (yearly_series to_datetime f pc) as [h|]; [now subst|].
      discriminate. }
    rewrite Hh in Hpage. split; [|discriminate].
    intros E. exfalso. exact (responds_with_data pc p tl page Hpage E).
Qed.

End NoData.

(** ** The further properties on the concrete dataset *)

Lemma series_years_are_consecutive_witness :
  series_years demo_series = year_range 2015 2021
  /\ (demo_series <> [] -> last_year demo_series = Ok 2021).
Proof.
  apply (series_years_are_consecutive to_datetime_ymd demo_frame [] "A1"
           demo_series).
  - reflexivity.
  - vm_compute. discriminate.
  - vm_compute. reflexivity.
  - vm_compute. reflexivity.
Defined.

Lemma series_has_at_most_ten_points_witness :
  (List.length demo_series <= 10)%nat.
Proof.
  apply (series_has_at_most_ten_points to_datetime_ymd demo_frame [] "A1"
           demo_series).
  left. vm_compute. reflexivity.
Defined.

(** F6 has dated records, and none of its series: a record on the last day
    of 2261 leaves no room for the last bin. *)
Lemma empty_series_iff_witness :
  product_points to_datetime_ymd demo_late "F6" <> []
  /\ bins_in_bounds (product_points to_datetime_ymd demo_late "F6") = false
  /\ (@None Series = None
      <-> product_points to_datetime_ymd demo_late "F6" = []
          \/ bins_in_bounds (product_points to_datetime_ymd demo_late "F6")
             = false)
  /\ (@nil (Timestamp * option Z) = [] <->
      product_points to_datetime_ymd demo_late "F6" = []
      \/ bins_in_bounds (product_points to_datetime_ymd demo_late "F6") = false
      \/ final_year (product_points to_datetime_ymd demo_late "F6") < 2015
      \/ 2024 < first_year (product_points to_datetime_ymd demo_late "F6")).
Proof.
  split; [vm_compute; discriminate|]. split; [vm_compute; reflexivity|].
  apply (empty_series_iff to_datetime_ymd demo_late [] "F6" [] None).
  - reflexivity.
  - vm_compute. reflexivity.
  - vm_compute. reflexivity.
Defined.

Lemma point_is_sum_of_year_witness :
  Some 100
  = Some (wrap64 (exact_sum
                    (year_quantities
                       (product_points to_datetime_ymd demo_frame "A1") 2015)))
  /\ (int64_min
      <= exact_sum (year_quantities
                      (product_points to_datetime_ymd demo_frame "A1") 2015)
      <= int64_max ->
      Some 100
      = Some (exact_sum (year_quantities
                           (product_points to_datetime_ymd demo_frame "A1")
                           2015))).
Proof.
  apply (point_is_sum_of_year to_datetime_ymd demo_frame [] "A1" demo_series
           (year_end 2015, Some 100)).
  - left. vm_compute. reflexivity.
  - simpl. tauto.
Defined.

Lemma series_ignores_other_products_witness :
  fst (prepare_data to_datetime_ymd "A1"
         [mkFrame (indexed demo_A1)
            (rows demo_A1 ++ [record "B2" "2016/5/5" 7])])
  = fst (prepare_data to_datetime_ymd "A1" [demo_A1])
  /\ fst (get_yearly_demand to_datetime_ymd "A1"
            [mkFrame (indexed demo_A1)
               (rows demo_A1 ++ [record "B2" "2016/5/5" 7])])
     = fst (get_yearly_demand to_datetime_ymd "A1" [demo_A1]).
Proof.
  apply (series_ignores_other_products to_datetime_ymd demo_A1
           [record "B2" "2016/5/5" 7] [] [] "A1").
  intros r Hr. simpl in Hr. destruct Hr as [<-|[]]. discriminate.
Defined.

Lemma displayed_forecast_years_witness :
  keys (shown_items 2021
          [inject_Z 120; inject_Z 120; inject_Z 120; inject_Z 120;
           inject_Z 120])
  = year_range 2025 (2021 + 5)
  /\ exists page,
       returns (demo_index (POST [("product_code", "A1")])) [demo_frame] page
       /\ map fst (displayed_forecast page)
          = map str (year_range 2025 (2021 + 5))
       /\ List.length (displayed_forecast page) = Z.to_nat (2021 - 2019).
Proof.
  assert (Hs : returns (prepare_data to_datetime_ymd "A1") [demo_frame]
                 demo_series) by (vm_compute; reflexivity).
  destruct (displayed_forecast_years Q no_format (@no_png (Figure Q))
              (option Z) naive_fit naive_forecast to_datetime_ymd demo_frame
              [] [("product_code", "A1")] "A1" demo_series 2021 (Some 120)
              (inject_Z 120) (inject_Z 120) (inject_Z 120) (inject_Z 120)
              (inject_Z 120) eq_refl Hs eq_refl eq_refl eq_refl)
    as [Hk [_ Hpage]].
  split; [exact Hk|]. apply (Hpage [] []); reflexivity.
Defined.

Lemma success_page_charts_witness :
  exists page,
    returns (demo_index_png (POST [("product_code", "A1")])) [demo_frame] page
    /\ error_block page = None
    /\ historical_block page = Some (Some "A1", b64encode [Byte.x89])
    /\ forecast_plot_block page = Some (Some "A1", b64encode [Byte.x89]).
Proof.
  apply (success_page_charts Q no_format (@one_byte_png (Figure Q)) (option Z)
           naive_fit naive_forecast to_datetime_ymd demo_frame []
           [("product_code", "A1")] "A1" demo_series 2021 (Some 120)
           [inject_Z 120; inject_Z 120; inject_Z 120; inject_Z 120;
            inject_Z 120] [Byte.x89] [Byte.x89]).
  - reflexivity.
  - vm_compute. reflexivity.
  - reflexivity.
  - reflexivity.
  - reflexivity.
  - reflexivity.
  - reflexivity.
  - discriminate.
  - discriminate.
Defined.

(** E5 ends in 2016.  With a library that fits its two points and a
    rasteriser that fails on a figure without a line, the request raises. *)
Lemma short_history_request_raises_witness :
  forecast_artists no_format
    (shown_items 2016
       [inject_Z 120; inject_Z 120; inject_Z 120; inject_Z 120; inject_Z 120])
  = [Text (1 # 2) (1 # 2) no_forecast_data]
  /\ fst (demo_index_strict (POST [("product_code", "E5")]) [demo_short])
     = Raise ValueError.
Proof.
  apply (short_history_request_raises Q no_format strict_png (option Z)
           lenient_fit naive_forecast to_datetime_ymd demo_short []
           [("product_code", "E5")] "E5" demo_E5_series 2016 (Some 120)
           [inject_Z 120; inject_Z 120; inject_Z 120; inject_Z 120;
            inject_Z 120] [Byte.x89] ValueError).
  - reflexivity.
  - vm_compute. reflexivity.
  - reflexivity.
  - reflexivity.
  - reflexivity.
  - reflexivity.
  - lia.
  - reflexivity.
  - reflexivity.
Defined.

Lemma forecast_plot_draws_window_witness :
  create_forecast_plot no_format (@no_png (Figure Q)) (str_keys demo_items)
    "A1"
  = encoded
      (@no_png (Figure Q)
         (forecast_figure
            (forecast_artists no_format
               (filter (fun yd => in_forecast_window (fst yd)) demo_items))
            "A1")).
Proof.
  apply (forecast_plot_draws_window Q no_format (@no_png (Figure Q))
           demo_items "A1").
  simpl. repeat constructor; simpl; intuition discriminate.
Defined.


(** Every selection from a dataset whose codes were read as numbers is
    empty. *)
Lemma products_are_the_codes_present_witness :
  products demo_numeric = [Num (inject_Z 123); Num (inject_Z 456)]
  /\ forall pc, product_rows demo_numeric pc = [].
Proof.
  split; [reflexivity|].
  destruct (products_are_the_codes_present demo_numeric)
    as [_ [_ [_ [_ H]]]].
  apply H. intros r Hr. simpl in Hr.
  destruct Hr as [<-|[<-|[]]]; eexists; reflexivity.
Defined.

Lemma no_data_page_iff_witness :
  mkPage (float := Q) None (Some no_data_message) None None
  = mkPage None (Some no_data_message) None None
  <-> product_points to_datetime_ymd demo_frame "C3" = []
      \/ bins_in_bounds (product_points to_datetime_ymd demo_frame "C3") = false
      \/ final_year (product_points to_datetime_ymd demo_frame "C3") < 2015
      \/ 2024 < first_year (product_points to_datetime_ymd demo_frame "C3").
Proof.
  apply (no_data_page_iff Q no_format (@no_png (Figure Q)) (option Z)
           naive_fit naive_forecast to_datetime_ymd demo_frame []
           [("product_code", "C3")] "C3").
  - reflexivity.
  - reflexivity.
  - vm_compute. reflexivity.
Defined.
